(** * The vedo example notebooks as programs over the library's call surface

    The two notebooks [examples/notebooks/pyplot/histo_1D.ipynb] and
    [examples/notebooks/basic/pca.ipynb] are flat sequences of calls into
    numpy and vedo.  Each code cell is embedded as a program that reads and
    binds names of the kernel's namespace and performs library calls; a
    program is run against a library, which answers every call by a value
    or by an exception. *)

From Stdlib Require Import ZArith String List Permutation Lia.
From stdpp Require Import gmap strings list.

Local Open Scope string_scope.
Local Open Scope list_scope.

(** ** Python values that cross the call surface *)

Definition loc := nat.
Definition exn := string.

#[warnings="-register-all"]
Inductive pyval : Type :=
| VNone
| VBool (b : bool)
| VInt (n : Z)
| VFloat (num : Z) (den : positive)   (* the float a literal or quotient num/den denotes *)
| VStr (s : string)
| VTuple (items : list pyval)
| VModule (name : string)
| VFunc (name : string)               (* a function of the library *)
| VNames (bindings : list (string * pyval))   (* the public names of a module *)
| VObj (l : loc).                     (* a reference to an object of the library *)

(** What is called: an import, a function the imports provide, or a method
    of a value ([a - b], [a * b] and [a += b] are the methods [__sub__],
    [__mul__] and [__iadd__] of [a]). *)
Inductive callee : Type :=
| Importing (module : string) (names : list string)
| Fn (name : string)
| Method (self : pyval) (name : string).

Record call : Type := Call {
  target : callee;
  args : list pyval;
  kwargs : list (string * pyval)
}.

Inductive result : Type :=
| Returned (v : pyval)
| Raised (e : exn).

(** An event of the log: a call and what it gave. *)
Abbreviation event := (call * result)%type.

(** ** Programs *)

Inductive prog : Type :=
| Ret (v : pyval)
| Throw (e : exn)
| Load (x : string) (k : pyval -> prog)
| Store (x : string) (v : pyval) (k : prog)
| Lib (c : call) (k : pyval -> prog)
| Try (body : prog) (handler : exn -> prog) (k : pyval -> prog).

Fixpoint bind (p : prog) (f : pyval -> prog) : prog :=
  match p with
  | Ret v => f v
  | Throw e => Throw e
  | Load x k => Load x (fun v => bind (k v) f)
  | Store x v k => Store x v (bind k f)
  | Lib c k => Lib c (fun v => bind (k v) f)
  | Try b h k => Try b h (fun v => bind (k v) f)
  end.

Declare Scope prog_scope.
Delimit Scope prog_scope with prog.
Bind Scope prog_scope with prog.

Notation "x <- p ;; q" := (bind p (fun x => q))
  (at level 100, p at next level, right associativity) : prog_scope.
Notation "p ;; q" := (bind p (fun _ => q))
  (at level 100, right associativity) : prog_scope.

(** [x] as an expression. *)
Definition name (x : string) : prog := Load x Ret.

(** [x = e] *)
Definition assign (x : string) (e : prog) : prog :=
  (v <- e ;; Store x v (Ret VNone))%prog.

(** [f(args, kwargs)] for a function of the imports. *)
Definition callf (f : string) (a : list pyval) (kw : list (string * pyval)) : prog :=
  Lib (Call (Fn f) a kw) Ret.

(** [self.m(args, kwargs)] *)
Definition meth (self : pyval) (m : string) (a : list pyval)
    (kw : list (string * pyval)) : prog :=
  Lib (Call (Method self m) a kw) Ret.

(** [x += e]: the target is read, the right-hand side evaluated, the
    operator applied, and the result bound to [x] again. *)
Definition iadd (x : string) (e : prog) : prog :=
  (old <- name x ;;
   v <- e ;;
   r <- meth old "__iadd__" [v] [] ;;
   Store x r (Ret VNone))%prog.

(** [import m as x] binds [x] to the module. *)
Definition import_as (m x : string) : prog :=
  assign x (Lib (Call (Importing m []) [] []) Ret).

(** [from m import f] binds [f] to what the module has under that name. *)
Definition import_from (m f : string) : prog :=
  assign f (Lib (Call (Importing m [f]) [] []) Ret).

(** The names a star import receives: the public names of the module with
    their values, which only the library knows. *)
Definition exports (v : pyval) : list (string * pyval) :=
  match v with
  | VNames bindings => bindings
  | _ => []
  end.

(** Bind the names of [bindings] in order, then go on with [k]. *)
Fixpoint store_all (bindings : list (string * pyval)) (k : prog) : prog :=
  match bindings with
  | [] => k
  | (x, v) :: rest => Store x v (store_all rest k)
  end.

(** [from m import *] binds every public name of the module, one after the
    other. *)
Definition import_star (m : string) : prog :=
  Lib (Call (Importing m ["*"]) [] [])
    (fun v => store_all (exports v) (Ret VNone)).

(** ** Running a program against a library *)

(** The namespace of a kernel is a dict, which keeps the names in the order
    they were first bound. *)
Definition namespace : Type := list (string * pyval).

Fixpoint ns_lookup (x : string) (n : namespace) : option pyval :=
  match n with
  | [] => None
  | (y, v) :: rest => if String.eqb x y then Some v else ns_lookup x rest
  end.

Fixpoint ns_store (x : string) (v : pyval) (n : namespace) : namespace :=
  match n with
  | [] => [(x, v)]
  | (y, w) :: rest =>
      if String.eqb x y then (y, v) :: rest else (y, w) :: ns_store x v rest
  end.

(** The namespace after the names of [bindings] are bound in order. *)
Definition ns_store_all (bindings : list (string * pyval)) (n : namespace)
    : namespace :=
  fold_left (fun n b => ns_store (fst b) (snd b) n) bindings n.

Definition NameError : exn := "NameError".

Record kernel (S : Type) : Type := Kernel {
  ns : namespace;
  libst : S;
  log : list event
}.

Arguments Kernel {S} _ _ _.
Arguments ns {S} _.
Arguments libst {S} _.
Arguments log {S} _.

(** The cells of a notebook run in order in one kernel; a cell that raises
    ends the run. *)
Definition notebook (cells : list prog) : prog :=
  fold_right (fun c rest => bind c (fun _ => rest)) (Ret VNone) cells.

Section Exec.
Context {S : Type}.
Variable lib : call -> S -> result * S.

Fixpoint exec (p : prog) (σ : kernel S) : result * kernel S :=
  match p with
  | Ret v => (Returned v, σ)
  | Throw e => (Raised e, σ)
  | Load x k =>
      match ns_lookup x (ns σ) with
      | Some v => exec (k v) σ
      | None => (Raised NameError, σ)
      end
  | Store x v k => exec k (Kernel (ns_store x v (ns σ)) (libst σ) (log σ))
  | Lib c k =>
      match lib c (libst σ) with
      | (Returned v, s') =>
          exec (k v) (Kernel (ns σ) s' (log σ ++ [(c, Returned v)]))
      | (Raised e, s') =>
          (Raised e, Kernel (ns σ) s' (log σ ++ [(c, Raised e)]))
      end
  | Try b h k =>
      match exec b σ with
      | (Returned v, σ') => exec (k v) σ'
      | (Raised e, σ') =>
          match exec (h e) σ' with
          | (Returned v, σ'') => exec (k v) σ''
          | (Raised e', σ'') => (Raised e', σ'')
          end
      end
  end.

Definition fresh (s : S) : kernel S := Kernel [] s [].

Definition run (cells : list prog) (s : S) : result * kernel S :=
  exec (notebook cells) (fresh s).

End Exec.

(** ** histo_1D.ipynb *)

Definition newline : string := String (Ascii.ascii_of_nat 10) "".

(** Lines 9 to 25: the imports, the samples and the first histogram. *)
Definition histo_1D_hst1 : prog :=
  (import_as "numpy" "np" ;;
   import_star "vedo" ;;
   import_from "vedo.pyplot" "histogram" ;;
   callf "embedWindow" [VStr "2d"] [] ;;

   (np <- name "np" ;; meth np "random.seed" [VInt 3] []) ;;
   assign "data1" (np <- name "np" ;; meth np "random.randn" [VInt 250] []) ;;
   assign "data2" (np <- name "np" ;;
                   u <- meth np "random.rand" [VInt 250] [] ;;
                   d <- meth u "__sub__" [VFloat 1 2] [] ;;
                   meth d "__mul__" [VInt 12] []) ;;

   assign "hst1" (data1 <- name "data1" ;;
                  callf "histogram" [data1]
                    [("bins", VInt 30);
                     ("errors", VBool true);
                     ("aspect", VFloat 4 3);
                     ("title", VStr "My distributions");
                     ("c", VStr "red");
                     ("marker", VStr "o")]))%prog.

(** [hst1.unpack(15).c('violet')] *)
Definition highlight_bin : prog :=
  (hst1 <- name "hst1" ;;
   bin <- meth hst1 "unpack" [VInt 15] [] ;;
   meth bin "c" [VStr "violet"] [])%prog.

(** Lines 29 to 36: the annotation, the second histogram and the display. *)
Definition histo_1D_overlay : prog :=
  (iadd "hst1" (callf "Text3D" [VStr ("Highlight a" +:+ newline +:+ "special bin")]
                  [("pos", VTuple [VFloat 1 2; VInt 20]); ("c", VStr "v")]) ;;

   assign "hst2" (data2 <- name "data2" ;;
                  hst1 <- name "hst1" ;;
                  callf "histogram" [data2]
                    [("format", hst1); ("alpha", VFloat 1 2)]) ;;

   hst1 <- name "hst1" ;;
   hst2 <- name "hst2" ;;
   callf "show" [hst1; hst2] [("zoom", VFloat 13 10)])%prog.

Definition histo_1D_cell0 : prog :=
  (histo_1D_hst1 ;; highlight_bin ;; histo_1D_overlay)%prog.

(** The second cell of the notebook is empty. *)
Definition histo_1D : list prog := [histo_1D_cell0; Ret VNone].

(** ** pca.ipynb *)

Definition pca_cell0 : prog :=
  (import_star "vedo" ;;
   import_as "numpy" "np" ;;

   assign "plt" (callf "Plotter" [] []) ;;

   assign "pts" (np <- name "np" ;;
                 meth np "random.randn" [VInt 500; VInt 3] []) ;;

   assign "elli" (pts <- name "pts" ;;
                  callf "pcaEllipsoid" [pts] [("pvalue", VFloat 1 2)]) ;;
   iadd "plt" (name "elli") ;;

   assign "ipts" (elli <- name "elli" ;;
                  pts <- name "pts" ;;
                  meth elli "insidePoints" [pts] []) ;;
   assign "opts" (elli <- name "elli" ;;
                  pts <- name "pts" ;;
                  meth elli "insidePoints" [pts] [("invert", VBool true)]) ;;
   iadd "plt" (ipts <- name "ipts" ;; callf "Points" [ipts] [("c", VStr "g")]) ;;
   iadd "plt" (opts <- name "opts" ;; callf "Points" [opts] [("c", VStr "r")]) ;;

   (ipts <- name "ipts" ;;
    n <- meth ipts "N" [] [] ;;
    callf "printc" [VStr "inside  points #"; n] [("c", VStr "g")]) ;;
   (opts <- name "opts" ;;
    n <- meth opts "N" [] [] ;;
    callf "printc" [VStr "outside points #"; n] [("c", VStr "r")]) ;;
   (elli <- name "elli" ;;
    a <- meth elli "asphericity" [] [] ;;
    callf "printc" [VStr "a-sphericity:"; a] []) ;;
   plt <- name "plt" ;;
   meth plt "show" [] [])%prog.

Definition pca_cell1 : prog :=
  (plt <- name "plt" ;;
   meth plt "close" [] [])%prog.

Definition pca : list prog := [pca_cell0; pca_cell1; Ret VNone].

(** ** Logs *)

(** The name under which a call appears in the source. *)
Definition describe (c : call) : string :=
  match target c with
  | Importing m _ => "import " +:+ m
  | Fn f => f
  | Method _ m => m
  end.

Definition is_fn (f : string) (c : call) : bool :=
  match target c with
  | Fn g => String.eqb f g
  | _ => false
  end.

Definition is_method (m : string) (c : call) : bool :=
  match target c with
  | Method _ g => String.eqb m g
  | _ => false
  end.

(** The calls of a log to the function [f], and to the method [m], in order. *)
Definition calls_to (f : string) (lg : list event) : list call :=
  List.filter (is_fn f) (map fst lg).

Definition invocations (m : string) (lg : list event) : list call :=
  List.filter (is_method m) (map fst lg).

(** Every [a] in a list of names stands before every [b]. *)
Definition before (a b : string) (names : list string) : Prop :=
  forall i j, names !! i = Some a -> names !! j = Some b -> i < j.

Definition val (vs : list pyval) (i : nat) : pyval := nth i vs VNone.

(** The value of [np] in [histo_1D.ipynb] after its first two lines: the
    module that [import numpy as np] bound, unless the star import that
    follows binds [np] again. *)
Definition histo_1D_np (vs : list pyval) : pyval :=
  match ns_lookup "np" (ns_store_all (exports (val vs 1)) [("np", val vs 0)]) with
  | Some v => v
  | None => val vs 0
  end.

(** The calls [histo_1D.ipynb] makes, in order; [val vs i] is the value the
    call at index [i] returned. *)
Definition histo_1D_calls (vs : list pyval) : list call :=
  [ Call (Importing "numpy" []) [] [];
    Call (Importing "vedo" ["*"]) [] [];
    Call (Importing "vedo.pyplot" ["histogram"]) [] [];
    Call (Fn "embedWindow") [VStr "2d"] [];
    Call (Method (histo_1D_np vs) "random.seed") [VInt 3] [];
    Call (Method (histo_1D_np vs) "random.randn") [VInt 250] [];
    Call (Method (histo_1D_np vs) "random.rand") [VInt 250] [];
    Call (Method (val vs 6) "__sub__") [VFloat 1 2] [];
    Call (Method (val vs 7) "__mul__") [VInt 12] [];
    Call (Fn "histogram") [val vs 5]
      [("bins", VInt 30); ("errors", VBool true); ("aspect", VFloat 4 3);
       ("title", VStr "My distributions"); ("c", VStr "red");
       ("marker", VStr "o")];
    Call (Method (val vs 9) "unpack") [VInt 15] [];
    Call (Method (val vs 10) "c") [VStr "violet"] [];
    Call (Fn "Text3D") [VStr ("Highlight a" +:+ newline +:+ "special bin")]
      [("pos", VTuple [VFloat 1 2; VInt 20]); ("c", VStr "v")];
    Call (Method (val vs 9) "__iadd__") [val vs 12] [];
    Call (Fn "histogram") [val vs 8]
      [("format", val vs 13); ("alpha", VFloat 1 2)];
    Call (Fn "show") [val vs 13; val vs 14] [("zoom", VFloat 13 10)] ].

(** The calls [pca.ipynb] makes, in order. *)
Definition pca_calls (vs : list pyval) : list call :=
  [ Call (Importing "vedo" ["*"]) [] [];
    Call (Importing "numpy" []) [] [];
    Call (Fn "Plotter") [] [];
    Call (Method (val vs 1) "random.randn") [VInt 500; VInt 3] [];
    Call (Fn "pcaEllipsoid") [val vs 3] [("pvalue", VFloat 1 2)];
    Call (Method (val vs 2) "__iadd__") [val vs 4] [];
    Call (Method (val vs 4) "insidePoints") [val vs 3] [];
    Call (Method (val vs 4) "insidePoints") [val vs 3] [("invert", VBool true)];
    Call (Fn "Points") [val vs 6] [("c", VStr "g")];
    Call (Method (val vs 5) "__iadd__") [val vs 8] [];
    Call (Fn "Points") [val vs 7] [("c", VStr "r")];
    Call (Method (val vs 9) "__iadd__") [val vs 10] [];
    Call (Method (val vs 6) "N") [] [];
    Call (Fn "printc") [VStr "inside  points #"; val vs 12] [("c", VStr "g")];
    Call (Method (val vs 7) "N") [] [];
    Call (Fn "printc") [VStr "outside points #"; val vs 14] [("c", VStr "r")];
    Call (Method (val vs 4) "asphericity") [] [];
    Call (Fn "printc") [VStr "a-sphericity:"; val vs 16] [];
    Call (Method (val vs 11) "show") [] [];
    Call (Method (val vs 11) "close") [] [] ].

(** The names of the calls of [pca.ipynb], top to bottom. *)
Definition pca_order : list string :=
  [ "import vedo"; "import numpy"; "Plotter"; "random.randn"; "pcaEllipsoid";
    "__iadd__"; "insidePoints"; "insidePoints"; "Points"; "__iadd__";
    "Points"; "__iadd__"; "N"; "printc"; "N"; "printc"; "asphericity";
    "printc"; "show"; "close" ].

(** A run follows a list of calls: either every call returned and the run
    completed, or the calls up to the first one that raised were made and
    its exception is the outcome of the run. *)
Definition traced (calls : list pyval -> list call) (r : result)
    (lg : list event) : Prop :=
  exists vs,
    (length vs = length (calls vs) /\ r = Returned VNone /\
     lg = zip (calls vs) (map Returned vs))
    \/
    (exists e, length vs < length (calls vs) /\ r = Raised e /\
     lg = zip (calls vs) (map Returned vs ++ [Raised e])).

Definition returned (rs : list result) : list pyval :=
  omap (fun r => match r with Returned v => Some v | Raised _ => None end) rs.

(** What a run shows: its outcome, the state of the library and the log. *)
Definition outcome {S : Type} (x : result * kernel S) : result * S * list event :=
  (fst x, libst (snd x), log (snd x)).

(** ** What a complete run of a notebook logs *)

(** The call at index [i] of the log is [cl], and it returned [v]. *)
Definition returned_at (lg : list event) (i : nat) (cl : call) (v : pyval) : Prop :=
  lg !! i = Some (cl, Returned v).

(** The first histogram: built from the 250 samples of [randn(250)] with
    the six options of the source; a bin of it is selected and recolored,
    and a 3D text is added to it with [+=]. *)
Definition first_histogram (lg : list event) : Prop :=
  exists np data1 hst1 bin bin' text hst1',
    let construct :=
      Call (Fn "histogram") [data1]
        [("bins", VInt 30); ("errors", VBool true); ("aspect", VFloat 4 3);
         ("title", VStr "My distributions"); ("c", VStr "red");
         ("marker", VStr "o")] in
    returned_at lg 5 (Call (Method np "random.randn") [VInt 250] []) data1 /\
    returned_at lg 9 construct hst1 /\
    head (calls_to "histogram" lg) = Some construct /\
    returned_at lg 10 (Call (Method hst1 "unpack") [VInt 15] []) bin /\
    returned_at lg 11 (Call (Method bin "c") [VStr "violet"] []) bin' /\
    returned_at lg 12
      (Call (Fn "Text3D") [VStr ("Highlight a" +:+ newline +:+ "special bin")]
         [("pos", VTuple [VFloat 1 2; VInt 20]); ("c", VStr "v")]) text /\
    returned_at lg 13 (Call (Method hst1 "__iadd__") [text] []) hst1'.

(** The second histogram: built from the second sample array, with the
    value of [hst1] as format template and [alpha=0.5], and nothing else.
    [hst1] is what [hst1 += Text3D(...)] left there. *)
Definition second_histogram (lg : list event) : Prop :=
  exists np u d data2 first hst1 text hst1' hst2,
    returned_at lg 6 (Call (Method np "random.rand") [VInt 250] []) u /\
    returned_at lg 7 (Call (Method u "__sub__") [VFloat 1 2] []) d /\
    returned_at lg 8 (Call (Method d "__mul__") [VInt 12] []) data2 /\
    returned_at lg 9 first hst1 /\
    returned_at lg 13 (Call (Method hst1 "__iadd__") [text] []) hst1' /\
    let construct :=
      Call (Fn "histogram") [data2]
        [("format", hst1'); ("alpha", VFloat 1 2)] in
    returned_at lg 14 construct hst2 /\
    calls_to "histogram" lg = [first; construct].

(** The display: one call of [show], the last call of the run, with the
    two histograms and [zoom=1.3]. *)
Definition displayed (lg : list event) : Prop :=
  exists first hst1 text hst1' second hst2 r,
    returned_at lg 9 first hst1 /\
    returned_at lg 13 (Call (Method hst1 "__iadd__") [text] []) hst1' /\
    returned_at lg 14 second hst2 /\
    is_fn "histogram" first = true /\
    is_fn "histogram" second = true /\
    let display := Call (Fn "show") [hst1'; hst2] [("zoom", VFloat 13 10)] in
    calls_to "show" lg = [display] /\
    last lg = Some (display, Returned r).

(** The ellipsoid: one fitting call on the 500 x 3 cloud with
    [pvalue=0.5]; two containment tests on its result, without and with
    the inversion flag; the point count of each of the two point sets the
    tests returned; and the asphericity of the ellipsoid. *)
Definition ellipsoid_calls (lg : list event) : Prop :=
  exists np pts elli ipts opts,
    let fit := Call (Fn "pcaEllipsoid") [pts] [("pvalue", VFloat 1 2)] in
    let test_in := Call (Method elli "insidePoints") [pts] [] in
    let test_out :=
      Call (Method elli "insidePoints") [pts] [("invert", VBool true)] in
    returned_at lg 3 (Call (Method np "random.randn") [VInt 500; VInt 3] []) pts /\
    returned_at lg 4 fit elli /\
    calls_to "pcaEllipsoid" lg = [fit] /\
    returned_at lg 6 test_in ipts /\
    returned_at lg 7 test_out opts /\
    invocations "insidePoints" lg = [test_in; test_out] /\
    invocations "N" lg = [Call (Method ipts "N") [] []; Call (Method opts "N") [] []] /\
    invocations "asphericity" lg = [Call (Method elli "asphericity") [] []].

(** Every point count is asked of the object the fitting call returned. *)
Definition count_asked_of_ellipsoid (lg : list event) : Prop :=
  forall fit elli cl,
    In (fit, Returned elli) lg -> is_fn "pcaEllipsoid" fit = true ->
    In cl (invocations "N" lg) -> target cl = Method elli "N".

(** The calls of [pca.ipynb] are made top to bottom. *)
Definition top_to_bottom (r : result) (lg : list event) : Prop :=
  let names := map (fun ev => describe (fst ev)) lg in
  (exists n, names = take n pca_order) /\
  (forall v, r = Returned v -> names = pca_order) /\
  before "random.randn" "pcaEllipsoid" names /\
  before "pcaEllipsoid" "insidePoints" names /\
  before "insidePoints" "show" names /\
  before "printc" "show" names /\
  before "show" "close" names.

(** An exception of a library call ends the run and is its outcome. *)
Definition propagates (r : result) (lg : list event) : Prop :=
  (forall i cl e, lg !! i = Some (cl, Raised e) -> r = Raised e /\ length lg = S i) /\
  (forall e, r = Raised e -> exists cl, last lg = Some (cl, Raised e)).

(** ** Two libraries that answer anything *)

(** The library that answers from a list of results. *)
Definition Exhausted : exn := "Exhausted".

Definition oracle (cl : call) (rs : list result) : result * list result :=
  match rs with
  | [] => (Raised Exhausted, [])
  | r :: rest => (r, rest)
  end.

(** The library that returns a new object for every call. *)
Definition counting (cl : call) (n : nat) : result * nat :=
  (Returned (VObj n), S n).

(** The library whose call number [k] raises. *)
Definition failing (k : nat) (cl : call) (n : nat) : result * nat :=
  if Nat.eqb n k then (Raised "RuntimeError", S n) else (Returned (VObj n), S n).

(** ** Error handling and names *)

(** No [try] on any path of the program. *)
Inductive handler_free : prog -> Prop :=
| hf_Ret v : handler_free (Ret v)
| hf_Throw e : handler_free (Throw e)
| hf_Load x k : (forall v, handler_free (k v)) -> handler_free (Load x k)
| hf_Store x v k : handler_free k -> handler_free (Store x v k)
| hf_Lib c k : (forall v, handler_free (k v)) -> handler_free (Lib c k).

(** Every name the program reads is in [B] or was bound by the program
    itself before. *)
Inductive closed : gset string -> prog -> Prop :=
| closed_Ret B v : closed B (Ret v)
| closed_Throw B e : closed B (Throw e)
| closed_Load B x k :
    x ∈ B -> (forall v, closed B (k v)) -> closed B (Load x k)
| closed_Store B x v k :
    closed ({[x]} ∪ B) k -> closed B (Store x v k)
| closed_Lib B c k :
    (forall v, closed B (k v)) -> closed B (Lib c k)
| closed_Try B b h k :
    closed B b -> (forall e, closed B (h e)) -> (forall v, closed B (k v)) ->
    closed B (Try b h k).

(** Two namespaces bind the names of [B] alike. *)
Definition agree (B : gset string) (n1 n2 : namespace) : Prop :=
  forall x, x ∈ B -> ns_lookup x n1 = ns_lookup x n2.

(** ** numpy and vedo, as far as the notebooks use them

    The notebooks call numpy and vedo, whose sources are not part of the
    examples.  numpy's floats and its global generator are parameters; the
    calls into vedo are modelled from the section on external interfaces of
    the specification. *)

(** Modelled from the spec: numpy, which is not among the sources, as far
    as the notebooks use it: floats, their subtraction and product, and the
    global generator from which the samples are generated randomly. *)
Class Numpy : Type := {
  num : Type;                              (* floating-point numbers *)
  float_of : Z -> positive -> num;         (* the float of the literal n/d *)
  fsub : num -> num -> num;
  fmul : num -> num -> num;
  gen : Type;                              (* states of the global generator *)
  seed_state : Z -> gen;                   (* the state [seed(n)] sets *)
  normal : nat -> gen -> list num * gen;   (* n standard normal draws *)
  uniform : nat -> gen -> list num * gen   (* n uniform draws from [0, 1) *)
}.

Definition point `{Numpy} : Type := (num * num * num)%type.

(** Modelled from the spec: vedo's geometry kernel and binning, which are
    not among the sources and which the specification leaves to the
    library.  [inside cloud p q] tells whether [q] lies within the ellipsoid fitted to [cloud] with
    confidence mass [p]; [frequency src n xs i] is the number of samples of
    [xs] in bin [i] of the [n] bins laid out over [src]. *)
Class Geometry (np : Numpy) : Type := {
  inside : list point -> num -> point -> bool;
  asphericity_of : list point -> num -> num;
  frequency : list num -> nat -> list num -> nat -> nat;
  default_bins : nat
}.

Definition TypeError : exn := "TypeError".
Definition IndexError : exn := "IndexError".
Definition AttributeError : exn := "AttributeError".
Definition ValueError : exn := "ValueError".

Definition kwarg (k : string) (kw : list (string * pyval)) : option pyval :=
  match List.find (fun p => String.eqb k (fst p)) kw with
  | Some p => Some (snd p)
  | None => None
  end.

(** [l[i]] of Python: a negative index counts from the end. *)
Definition index {A : Type} (l : list A) (i : Z) : option A :=
  if (0 <=? i)%Z then l !! Z.to_nat i
  else if (- Z.of_nat (length l) <=? i)%Z
       then l !! Z.to_nat (Z.of_nat (length l) + i)
       else None.

Section Library.
Context {np : Numpy} {geo : Geometry np}.

(** One bin of a histogram, as it is drawn. *)
Record bar : Type := Bar {
  height : nat;
  colour : option string;
  alpha : option pyval;
  errors : bool;
  marker : option pyval
}.

(** The objects of the library that the notebooks hold references to. *)
Inductive obj : Type :=
| OArray (data : list num)                 (* a 1-D array of samples *)
| OCloud (rows : list point)               (* an N x 3 array *)
| OBar (b : bar)
| OHistogram (bars : list loc) (src : list num) (bins : nat)
    (notes : list loc) (options : list (string * pyval))
| OText (txt : string) (options : list (string * pyval))
| OEllipsoid (cloud : list point) (pvalue : num)
| OPoints (pts : list point) (c : option string)
| OPlotter (actors : list loc) (closed : bool)
| OFloat (x : num).

(** The state of the library: its objects, the global generator of numpy,
    the display backend, what was displayed and what was printed. *)
Record world : Type := World {
  heap : list obj;
  rng : gen;
  backend : option string;
  screen : list (list pyval * list (string * pyval));
  stdout : list (list pyval * list (string * pyval))
}.

Definition set_heap (h : list obj) (w : world) : world :=
  World h (rng w) (backend w) (screen w) (stdout w).

Definition set_rng (g : gen) (w : world) : world :=
  World (heap w) g (backend w) (screen w) (stdout w).

(** The library in a new kernel, its generator in the state [g]. *)
Definition boot (g : gen) : world := World [] g None [] [].

(** A new object gets the next reference. *)
Definition alloc (o : obj) (w : world) : result * world :=
  (Returned (VObj (length (heap w))), set_heap (heap w ++ [o]) w).

Definition as_num (v : pyval) : option num :=
  match v with
  | VInt n => Some (float_of n 1)
  | VFloat n d => Some (float_of n d)
  | _ => None
  end.

Definition as_str (v : option pyval) : option string :=
  match v with
  | Some (VStr s) => Some s
  | _ => None
  end.

(** The rows of an N x 3 array. *)
Fixpoint rows3 (xs : list num) : list point :=
  match xs with
  | x :: y :: z :: rest => (x, y, z) :: rows3 rest
  | _ => []
  end.

(** The points a value holds: a point cloud or a point set. *)
Definition points_at (w : world) (v : pyval) : option (list point) :=
  match v with
  | VObj l =>
      match heap w !! l with
      | Some (OCloud pts) => Some pts
      | Some (OPoints pts _) => Some pts
      | _ => None
      end
  | _ => None
  end.

(** Modelled from the spec: numpy's [random] module, which is not among the
    sources; the samples are generated randomly at run time.
    [np.random.seed(n)] puts the generator in the state of [n]; [randn(n)], [randn(n, 3)] and [rand(n)] draw from the generator and
    leave it in its next state. *)
Definition random (f : string) (a : list pyval) (w : world) : result * world :=
  if String.eqb f "random.seed" then
    match a with
    | [VInt n] => (Returned VNone, set_rng (seed_state n) w)
    | _ => (Raised TypeError, w)
    end
  else if String.eqb f "random.randn" then
    match a with
    | [VInt n] =>
        if (n <? 0)%Z then (Raised ValueError, w)
        else alloc (OArray (fst (normal (Z.to_nat n) (rng w))))
               (set_rng (snd (normal (Z.to_nat n) (rng w))) w)
    | [VInt n; VInt 3] =>
        if (n <? 0)%Z then (Raised ValueError, w)
        else alloc (OCloud (rows3 (fst (normal (Z.to_nat n * 3) (rng w)))))
               (set_rng (snd (normal (Z.to_nat n * 3) (rng w))) w)
    | _ => (Raised TypeError, w)
    end
  else if String.eqb f "random.rand" then
    match a with
    | [VInt n] =>
        if (n <? 0)%Z then (Raised ValueError, w)
        else alloc (OArray (fst (uniform (Z.to_nat n) (rng w))))
               (set_rng (snd (uniform (Z.to_nat n) (rng w))) w)
    | _ => (Raised TypeError, w)
    end
  else (Raised AttributeError, w).

(** Modelled from the spec: the arithmetic of numpy's arrays, which is not
    among the sources: [a - x] and [a * x] of a numeric sample array and a
    number, element by element. *)
Definition elementwise (f : num -> num -> num) (xs : list num) (a : list pyval)
    (w : world) : result * world :=
  match a with
  | [x] =>
      match as_num x with
      | Some c => alloc (OArray (map (fun y => f y c) xs)) w
      | None => (Raised TypeError, w)
      end
  | _ => (Raised TypeError, w)
  end.

(** The bins of a histogram of [xs], laid out over [src] in [n] bins. *)
Definition bars_for (src : list num) (n : nat) (xs : list num)
    (kw : list (string * pyval)) : list obj :=
  map (fun i =>
         OBar (Bar (frequency src n xs i) (as_str (kwarg "c" kw))
                 (kwarg "alpha" kw)
                 (match kwarg "errors" kw with Some (VBool b) => b | _ => false end)
                 (kwarg "marker" kw)))
      (seq 0 n).

(** Modelled from the spec: [vedo.pyplot.histogram], which is not among
    the sources: a histogram-construction call accepting a
    numeric sample array and options (bin count, error-bar display, aspect
    ratio, title, color, marker style), returning a displayable object
    supporting sub-bin selection; with a format template it matches the bin
    layout of the prior histogram, and takes a transparency option. *)
Definition histogram (a : list pyval) (kw : list (string * pyval)) (w : world)
    : result * world :=
  match a with
  | [VObj d] =>
      match heap w !! d with
      | Some (OArray xs) =>
          let template :=
            match kwarg "format" kw with
            | Some (VObj t) =>
                match heap w !! t with
                | Some (OHistogram _ src n _ _) => Some (src, n)
                | _ => None
                end
            | _ => None
            end in
          let src := match template with Some (ys, _) => ys | None => xs end in
          let n :=
            match kwarg "bins" kw, template with
            | Some (VInt k), _ => Z.to_nat k
            | _, Some (_, m) => m
            | _, None => default_bins
            end in
          let first := length (heap w) in
          (Returned (VObj (first + n)),
           set_heap (heap w ++ bars_for src n xs kw
                       ++ [OHistogram (seq first n) src n [] kw]) w)
      | _ => (Raised TypeError, w)
      end
  | _ => (Raised TypeError, w)
  end.

(** Modelled from the spec: the method [unpack] of vedo's histograms, which
    is not among the sources: sub-bin selection.  [h.unpack(i)] is the bin
    of index [i] of the histogram. *)
Definition unpack (l : loc) (a : list pyval) (w : world) : result * world :=
  match heap w !! l, a with
  | Some (OHistogram bars _ _ _ _), [VInt i] =>
      match index bars i with
      | Some b => (Returned (VObj b), w)
      | None => (Raised IndexError, w)
      end
  | Some (OHistogram _ _ _ _ _), _ => (Raised TypeError, w)
  | _, _ => (Raised AttributeError, w)
  end.

Definition recolour (col : string) (b : bar) : bar :=
  Bar (height b) (Some col) (alpha b) (errors b) (marker b).

(** Modelled from the spec: the method [c] of vedo's objects, which is not
    among the sources: recoloring.  [b.c(col)] gives the bin the color
    [col] and returns the bin. *)
Definition c (l : loc) (a : list pyval) (w : world) : result * world :=
  match heap w !! l, a with
  | Some (OBar b), [VStr col] =>
      (Returned (VObj l), set_heap (<[l := OBar (recolour col b)]> (heap w)) w)
  | Some (OBar _), _ => (Raised TypeError, w)
  | _, _ => (Raised AttributeError, w)
  end.

(** Modelled from the spec: the operator [+=] of vedo's objects, which is
    not among the sources: a histogram is composable with text objects
    via an addition-like combination operator, and a plotting context
    supports incremental composition (add displayable objects).  [x += y]
    adds [y] to [x] and returns [x]. *)
Definition iadd_object (l : loc) (a : list pyval) (w : world) : result * world :=
  match heap w !! l, a with
  | Some (OHistogram bars src n notes kw), [VObj y] =>
      (Returned (VObj l),
       set_heap (<[l := OHistogram bars src n (notes ++ [y]) kw]> (heap w)) w)
  | Some (OPlotter actors closed), [VObj y] =>
      (Returned (VObj l),
       set_heap (<[l := OPlotter (actors ++ [y]) closed]> (heap w)) w)
  | _, _ => (Raised TypeError, w)
  end.

(** Modelled from the spec: vedo's [show], which is not among the sources:
    a display call accepting multiple displayable objects and a zoom
    factor. *)
Definition show (a : list pyval) (kw : list (string * pyval)) (w : world)
    : result * world :=
  (Returned VNone,
   World (heap w) (rng w) (backend w) (screen w ++ [(a, kw)]) (stdout w)).

(** Modelled from the spec: vedo's [Plotter], which is not among the
    sources: a plotting context object supporting incremental composition
    and explicit close. *)
Definition Plotter (w : world) : result * world := alloc (OPlotter [] false) w.

(** Modelled from the spec: the method [show] of vedo's [Plotter], which is
    not among the sources: the objects added to the plotting context are
    displayed. *)
Definition plotter_show (l : loc) (kw : list (string * pyval)) (w : world)
    : result * world :=
  match heap w !! l with
  | Some (OPlotter actors _) => show (map VObj actors) kw w
  | _ => (Raised AttributeError, w)
  end.

(** Modelled from the spec: the method [close] of vedo's [Plotter], which
    is not among the sources: explicit close/release. *)
Definition close (l : loc) (w : world) : result * world :=
  match heap w !! l with
  | Some (OPlotter actors _) =>
      (Returned VNone, set_heap (<[l := OPlotter actors true]> (heap w)) w)
  | _ => (Raised AttributeError, w)
  end.

(** Modelled from the spec: vedo's [pcaEllipsoid], which is not among the
    sources: an ellipsoid-fitting call accepting a point cloud and a
    confidence-mass parameter. *)
Definition pcaEllipsoid (a : list pyval) (kw : list (string * pyval)) (w : world)
    : result * world :=
  match a with
  | [v] =>
      match points_at w v, kwarg "pvalue" kw with
      | Some pts, Some p =>
          match as_num p with
          | Some q => alloc (OEllipsoid pts q) w
          | None => (Raised TypeError, w)
          end
      | _, _ => (Raised TypeError, w)
      end
  | _ => (Raised TypeError, w)
  end.

(** The points of [pts] inside the ellipsoid, or outside it when [invert]
    is set. *)
Definition select (cloud : list point) (p : num) (invert : bool)
    (pts : list point) : list point :=
  List.filter (fun q => xorb invert (inside cloud p q)) pts.

(** Modelled from the spec: the method [insidePoints] of vedo's meshes,
    which is not among the sources: a containment-test method (with an
    inversion
    flag for "outside"), classifying points as inside or outside the
    ellipsoid surface. *)
Definition insidePoints (l : loc) (a : list pyval) (kw : list (string * pyval))
    (w : world) : result * world :=
  match heap w !! l, a with
  | Some (OEllipsoid cloud p), [v] =>
      match points_at w v, kwarg "invert" kw with
      | Some pts, None => alloc (OPoints (select cloud p false pts) None) w
      | Some pts, Some (VBool b) => alloc (OPoints (select cloud p b pts) None) w
      | _, _ => (Raised TypeError, w)
      end
  | Some (OEllipsoid _ _), _ => (Raised TypeError, w)
  | _, _ => (Raised AttributeError, w)
  end.

(** Modelled from the spec: vedo's [Points], which is not among the sources:
    the point set of a cloud, in a color. *)
Definition Points (a : list pyval) (kw : list (string * pyval)) (w : world)
    : result * world :=
  match a with
  | [v] =>
      match points_at w v with
      | Some pts => alloc (OPoints pts (as_str (kwarg "c" kw))) w
      | None => (Raised TypeError, w)
      end
  | _ => (Raised TypeError, w)
  end.

(** Modelled from the spec: the method [N] of vedo's point sets, which is
    not among the sources: a point count accessor. *)
Definition N (l : loc) (w : world) : result * world :=
  match heap w !! l with
  | Some (OPoints pts _) => (Returned (VInt (Z.of_nat (length pts))), w)
  | _ => (Raised AttributeError, w)
  end.

(** Modelled from the spec: the method [asphericity] of the fitted
    ellipsoid, which is not among the sources: a sphericity/asphericity
    metric. *)
Definition asphericity (l : loc) (w : world) : result * world :=
  match heap w !! l with
  | Some (OEllipsoid cloud p) => alloc (OFloat (asphericity_of cloud p)) w
  | _ => (Raised AttributeError, w)
  end.

(** Modelled from the spec: vedo's [printc], which is not among the sources
    and of which the specification says nothing: the arguments go to the
    output. *)
Definition printc (a : list pyval) (kw : list (string * pyval)) (w : world)
    : result * world :=
  (Returned VNone,
   World (heap w) (rng w) (backend w) (screen w) (stdout w ++ [(a, kw)])).

(** Modelled from the spec: vedo's [embedWindow], which is not among the
    sources and of which the specification says nothing: the backend is
    recorded. *)
Definition embedWindow (a : list pyval) (w : world) : result * world :=
  match a with
  | [VStr b] =>
      (Returned VNone, World (heap w) (rng w) (Some b) (screen w) (stdout w))
  | _ => (Raised TypeError, w)
  end.

(** Modelled from the spec: vedo's [Text3D], which is not among the sources:
    text/annotation objects. *)
Definition Text3D (a : list pyval) (kw : list (string * pyval)) (w : world)
    : result * world :=
  match a with
  | [VStr t] => alloc (OText t kw) w
  | _ => (Raised TypeError, w)
  end.

(** Modelled from the spec: the public names of vedo, which is not among
    the sources, as far as the notebooks use them. *)
Definition vedo_names : list string :=
  [ "embedWindow"; "Text3D"; "show"; "Plotter"; "pcaEllipsoid"; "Points";
    "printc" ].

(** Modelled from the spec: what an import of numpy or vedo, which are not
    among the sources, gives: the module, the function asked for by name, or
    for a star the public names with the functions they stand for. *)
Definition imported (m : string) (names : list string) : pyval :=
  match names with
  | [] => VModule m
  | [f] =>
      if String.eqb f "*" then
        VNames (if String.eqb m "vedo"
                then map (fun g => (g, VFunc g)) vedo_names
                else [])
      else VFunc f
  | _ => VTuple (map VFunc names)
  end.

(** Modelled from the spec: vedo and numpy, which are not among the
    sources: the call surface of the library consumed by
    the notebooks. *)
Definition vedo (cl : call) (w : world) : result * world :=
  match target cl with
  | Importing m names => (Returned (imported m names), w)
  | Fn f =>
      if String.eqb f "embedWindow" then embedWindow (args cl) w
      else if String.eqb f "histogram" then histogram (args cl) (kwargs cl) w
      else if String.eqb f "Text3D" then Text3D (args cl) (kwargs cl) w
      else if String.eqb f "show" then show (args cl) (kwargs cl) w
      else if String.eqb f "Plotter" then Plotter w
      else if String.eqb f "pcaEllipsoid" then pcaEllipsoid (args cl) (kwargs cl) w
      else if String.eqb f "Points" then Points (args cl) (kwargs cl) w
      else if String.eqb f "printc" then printc (args cl) (kwargs cl) w
      else (Raised NameError, w)
  | Method (VModule m) f =>
      if String.eqb m "numpy" then random f (args cl) w
      else (Raised AttributeError, w)
  | Method (VObj l) f =>
      if String.eqb f "unpack" then unpack l (args cl) w
      else if String.eqb f "c" then c l (args cl) w
      else if String.eqb f "__iadd__" then iadd_object l (args cl) w
      else if String.eqb f "insidePoints" then insidePoints l (args cl) (kwargs cl) w
      else if String.eqb f "N" then N l w
      else if String.eqb f "asphericity" then asphericity l w
      else if String.eqb f "show" then plotter_show l (kwargs cl) w
      else if String.eqb f "close" then close l w
      else
        match heap w !! l with
        | Some (OArray xs) =>
            if String.eqb f "__sub__" then elementwise fsub xs (args cl) w
            else if String.eqb f "__mul__" then elementwise fmul xs (args cl) w
            else (Raised AttributeError, w)
        | _ => (Raised AttributeError, w)
        end
  | Method _ _ => (Raised AttributeError, w)
  end.

(** The points and the samples a name of the kernel holds. *)
Definition points_named (σ : kernel world) (x : string) : option (list point) :=
  match ns_lookup x (ns σ) with
  | Some v => points_at (libst σ) v
  | None => None
  end.

Definition samples_named (σ : kernel world) (x : string) : option (list num) :=
  match ns_lookup x (ns σ) with
  | Some (VObj l) =>
      match heap (libst σ) !! l with
      | Some (OArray xs) => Some xs
      | _ => None
      end
  | _ => None
  end.

End Library.

(** ** What the notebooks leave in the modelled library *)

(** The format template of the second histogram is the object the first
    histogram call returned, and both histograms have the same bins over
    the same samples. *)
Definition template_is_first `{Geometry} (σ : kernel world) : Prop :=
  exists first h1 data2 h2 bars1 bars2 src n notes o1 o2,
    returned_at (log σ) 9 first (VObj h1) /\
    is_fn "histogram" first = true /\
    returned_at (log σ) 14
      (Call (Fn "histogram") [data2]
         [("format", VObj h1); ("alpha", VFloat 1 2)]) (VObj h2) /\
    heap (libst σ) !! h1 = Some (OHistogram bars1 src n notes o1) /\
    heap (libst σ) !! h2 = Some (OHistogram bars2 src n [] o2) /\
    length bars1 = n /\ length bars2 = n.

(** What is on the screen is the two objects the two histogram calls
    returned, at zoom 1.3. *)
Definition shows_both `{Geometry} (σ : kernel world) : Prop :=
  exists first h1 second h2,
    returned_at (log σ) 9 first (VObj h1) /\
    returned_at (log σ) 14 second (VObj h2) /\
    is_fn "histogram" first = true /\
    is_fn "histogram" second = true /\
    screen (libst σ) = [([VObj h1; VObj h2], [("zoom", VFloat 13 10)])].

(** The containment tests partition the cloud: the inside and the outside
    set together are the 500 points of the cloud, every point is in exactly
    one of them, and the two point counts the notebook asks for add up to
    500. *)
Definition partitioned `{Geometry} (σ : kernel world) : Prop :=
  exists elli cloud inside_set outside_set pts ipts opts,
    ns_lookup "pts" (ns σ) = Some cloud /\
    returned_at (log σ) 6 (Call (Method elli "insidePoints") [cloud] [])
      inside_set /\
    returned_at (log σ) 7
      (Call (Method elli "insidePoints") [cloud] [("invert", VBool true)])
      outside_set /\
    points_at (libst σ) cloud = Some pts /\
    points_at (libst σ) inside_set = Some ipts /\
    points_at (libst σ) outside_set = Some opts /\
    length pts = 500 /\
    Permutation (ipts ++ opts) pts /\
    (forall q, In q pts ->
       (In q ipts /\ ~ In q opts) \/ (In q opts /\ ~ In q ipts)) /\
    returned_at (log σ) 12 (Call (Method inside_set "N") [] [])
      (VInt (Z.of_nat (length ipts))) /\
    returned_at (log σ) 14 (Call (Method outside_set "N") [] [])
      (VInt (Z.of_nat (length opts))) /\
    length ipts + length opts = 500.

(** Between [σ] and [σ'] the bin of index 15 of the histogram [hst1] got
    the color violet, and nothing else changed. *)
Definition only_colour_changes `{Geometry} (σ σ' : kernel world) : Prop :=
  exists h bars src notes opts b old,
    ns_lookup "hst1" (ns σ) = Some (VObj h) /\
    heap (libst σ) !! h = Some (OHistogram bars src 30 notes opts) /\
    length bars = 30 /\
    bars !! 15 = Some b /\
    heap (libst σ) !! b = Some (OBar old) /\
    heap (libst σ') !! b =
      Some (OBar (Bar (height old) (Some "violet") (alpha old) (errors old)
                    (marker old))) /\
    (forall i b', i <> 15 -> bars !! i = Some b' ->
       heap (libst σ') !! b' = heap (libst σ) !! b') /\
    (forall l, l <> b -> heap (libst σ') !! l = heap (libst σ) !! l) /\
    length (heap (libst σ')) = length (heap (libst σ)) /\
    rng (libst σ') = rng (libst σ) /\
    backend (libst σ') = backend (libst σ) /\
    screen (libst σ') = screen (libst σ) /\
    stdout (libst σ') = stdout (libst σ) /\
    ns σ' = ns σ.

(** The samples of the histogram notebook: [data1] is the 250 normal draws
    from the state of seed 3, [data2] the 250 uniform draws that follow,
    shifted and scaled; they are the arrays the two histogram calls
    receive. *)
Definition seeded_samples `{Geometry} (σ : kernel world) : Prop :=
  let after := snd (normal 250 (seed_state 3)) in
  exists d1 d2 o1 o2 h1 h2,
    samples_named σ "data1" = Some (fst (normal 250 (seed_state 3))) /\
    samples_named σ "data2" =
      Some (map (fun y => fmul y (float_of 12 1))
              (map (fun y => fsub y (float_of 1 2)) (fst (uniform 250 after)))) /\
    ns_lookup "data1" (ns σ) = Some d1 /\
    ns_lookup "data2" (ns σ) = Some d2 /\
    returned_at (log σ) 9 (Call (Fn "histogram") [d1] o1) h1 /\
    returned_at (log σ) 14 (Call (Fn "histogram") [d2] o2) h2.





(** ** An instance to run the library on

    Numbers are integers counted in thousandths, the generator is a counter
    and the ellipsoid is a ball. *)

Definition toy_numpy : Numpy := {|
  num := Z;
  float_of := fun n d => (n * 1000 / Z.pos d)%Z;
  fsub := Z.sub;
  fmul := fun x y => (x * y / 1000)%Z;
  gen := Z;
  seed_state := fun n => n;
  normal := fun n g =>
    (map (fun i => ((g + Z.of_nat i) * 7919 mod 6001 - 3000)%Z) (seq 0 n),
     (g + Z.of_nat n)%Z);
  uniform := fun n g =>
    (map (fun i => ((g + Z.of_nat i) * 104729 mod 1000)%Z) (seq 0 n),
     (g + Z.of_nat n)%Z)
|}.

Definition toy_inside (cloud : list (Z * Z * Z)) (p : Z) (q : Z * Z * Z) : bool :=
  let '(x, y, z) := q in (x * x + y * y + z * z <? 9000000)%Z.

Definition toy_frequency (src : list Z) (n : nat) (xs : list Z) (i : nat) : nat :=
  length (List.filter
            (fun x => ((x + 3000) * Z.of_nat n / 6001 =? Z.of_nat i)%Z) xs).

Definition toy_geometry : Geometry toy_numpy :=
  Build_Geometry toy_numpy toy_inside (fun _ _ => 0%Z) toy_frequency 25.

(** ** More of what the notebooks do *)

(** The names of the calls of [histo_1D.ipynb], top to bottom. *)
Definition histo_1D_order : list string :=
  [ "import numpy"; "import vedo"; "import vedo.pyplot"; "embedWindow";
    "random.seed"; "random.randn"; "random.rand"; "__sub__"; "__mul__";
    "histogram"; "unpack"; "c"; "Text3D"; "__iadd__"; "histogram"; "show" ].

(** The calls of [histo_1D.ipynb] are made top to bottom. *)
Definition histo_1D_in_order (r : result) (lg : list event) : Prop :=
  let names := map (fun ev => describe (fst ev)) lg in
  (exists n, names = take n histo_1D_order) /\
  (forall v, r = Returned v -> names = histo_1D_order) /\
  before "embedWindow" "histogram" names /\
  before "random.seed" "random.randn" names /\
  before "random.randn" "random.rand" names /\
  before "random.rand" "histogram" names /\
  before "unpack" "c" names /\
  before "c" "Text3D" names /\
  before "Text3D" "__iadd__" names /\
  before "__iadd__" "show" names /\
  before "histogram" "show" names.

(** The bindings of each notebook, in the order of the source: a name with
    the index of the call whose result it gets, or the star import at an
    index, which binds the names it receives. *)
Inductive binding : Type :=
| Name (x : string) (i : nat)
| Star (i : nat).

Definition histo_1D_assignments : list binding :=
  [ Name "np" 0; Star 1; Name "histogram" 2; Name "data1" 5; Name "data2" 8;
    Name "hst1" 9; Name "hst1" 13; Name "hst2" 14 ].


(** The namespace after the calls that returned [vs]: the bindings whose
    call returned, made in order. *)
Definition bound (asg : list binding) (vs : list pyval) : namespace :=
  fold_left
    (fun n a =>
       match a with
       | Name x i =>
           if Nat.ltb i (length vs) then ns_store x (val vs i) n else n
       | Star i =>
           if Nat.ltb i (length vs) then ns_store_all (exports (val vs i)) n
           else n
       end)
    asg [].

(** The namespace a run leaves is the one its bindings make, and what a
    complete run binds is [names] and the names that the star import, the
    call at index [star], received. *)
Definition binds (asg : list binding) (names : list string) (star : nat)
    (r : result) (n : namespace) (lg : list event) : Prop :=
  let vs := returned (map snd lg) in
  n = bound asg vs /\
  (forall v, r = Returned v ->
     forall x, is_Some (ns_lookup x n) <->
               In x names \/ In x (map fst (exports (val vs star)))).

(** The inside points are shown and counted in green under the label of the
    inside points, the outside points in red under the label of the outside
    points, and the asphericity is printed without a color. *)
Definition labelled (lg : list event) : Prop :=
  exists elli pts ipts opts shown_in shown_out n_in n_out a,
    returned_at lg 6 (Call (Method elli "insidePoints") [pts] []) ipts /\
    returned_at lg 7
      (Call (Method elli "insidePoints") [pts] [("invert", VBool true)]) opts /\
    returned_at lg 8 (Call (Fn "Points") [ipts] [("c", VStr "g")]) shown_in /\
    returned_at lg 10 (Call (Fn "Points") [opts] [("c", VStr "r")]) shown_out /\
    calls_to "Points" lg =
      [ Call (Fn "Points") [ipts] [("c", VStr "g")];
        Call (Fn "Points") [opts] [("c", VStr "r")] ] /\
    returned_at lg 12 (Call (Method ipts "N") [] []) n_in /\
    returned_at lg 14 (Call (Method opts "N") [] []) n_out /\
    returned_at lg 16 (Call (Method elli "asphericity") [] []) a /\
    calls_to "printc" lg =
      [ Call (Fn "printc") [VStr "inside  points #"; n_in] [("c", VStr "g")];
        Call (Fn "printc") [VStr "outside points #"; n_out] [("c", VStr "r")];
        Call (Fn "printc") [VStr "a-sphericity:"; a] [] ].

(** The plotter gets the ellipsoid, the inside points and the outside
    points, in this order, each [+=] applied to what the one before left in
    [plt]; what is shown and then closed is what the last [+=] left. *)
Definition plotter_chain (lg : list event) : Prop :=
  exists pts elli ipts opts shown_in shown_out plt0 plt1 plt2 plt3 r r',
    returned_at lg 2 (Call (Fn "Plotter") [] []) plt0 /\
    returned_at lg 4 (Call (Fn "pcaEllipsoid") [pts] [("pvalue", VFloat 1 2)])
      elli /\
    returned_at lg 8 (Call (Fn "Points") [ipts] [("c", VStr "g")]) shown_in /\
    returned_at lg 10 (Call (Fn "Points") [opts] [("c", VStr "r")]) shown_out /\
    returned_at lg 5 (Call (Method plt0 "__iadd__") [elli] []) plt1 /\
    returned_at lg 9 (Call (Method plt1 "__iadd__") [shown_in] []) plt2 /\
    returned_at lg 11 (Call (Method plt2 "__iadd__") [shown_out] []) plt3 /\
    invocations "__iadd__" lg =
      [ Call (Method plt0 "__iadd__") [elli] [];
        Call (Method plt1 "__iadd__") [shown_in] [];
        Call (Method plt2 "__iadd__") [shown_out] [] ] /\
    returned_at lg 18 (Call (Method plt3 "show") [] []) r /\
    invocations "show" lg = [Call (Method plt3 "show") [] []] /\
    last lg = Some (Call (Method plt3 "close") [] [], Returned r') /\
    invocations "close" lg = [Call (Method plt3 "close") [] []].

(** The last call of a notebook of [n + 1] calls is in the log exactly when
    the call before it returned, and never in the log of a run that an
    earlier call ended. *)
Definition last_call_needs_all (made : list call) (n : nat) (r : result)
    (lg : list event) : Prop :=
  (made <> [] <-> exists cl v, lg !! (n - 1) = Some (cl, Returned v)) /\
  (made <> [] -> length lg = S n) /\
  (forall e, r = Raised e -> length lg <= n -> made = []).

(** The bindings a program makes when it runs, in order. *)
Section Stores.
Context {S : Type}.
Variable lib : call -> S -> result * S.

Fixpoint stores (p : prog) (σ : kernel S) : list (string * pyval) :=
  match p with
  | Ret _ => []
  | Throw _ => []
  | Load x k =>
      match ns_lookup x (ns σ) with
      | Some v => stores (k v) σ
      | None => []
      end
  | Store x v k =>
      (x, v) :: stores k (Kernel (ns_store x v (ns σ)) (libst σ) (log σ))
  | Lib c k =>
      match lib c (libst σ) with
      | (Returned v, s') =>
          stores (k v) (Kernel (ns σ) s' (log σ ++ [(c, Returned v)]))
      | (Raised _, _) => []
      end
  | Try b h k =>
      stores b σ ++
      match exec lib b σ with
      | (Returned v, σ') => stores (k v) σ'
      | (Raised e, σ') =>
          stores (h e) σ' ++
          match exec lib (h e) σ' with
          | (Returned v, σ'') => stores (k v) σ''
          | (Raised _, _) => []
          end
      end
  end.

End Stores.

(** * Properties *)

(** ** Namespaces *)

Lemma ns_lookup_store_eq x v n : ns_lookup x (ns_store x v n) = Some v.
Proof.
  induction n as [|[y w] n IH]; simpl.
  - by rewrite String.eqb_refl.
  - destruct (String.eqb x y) eqn:E; simpl; by rewrite ?E.
Qed.

Lemma ns_lookup_store_ne x y v n :
  x <> y -> ns_lookup y (ns_store x v n) = ns_lookup y n.
Proof.
  intros Hne. induction n as [|[z w] n IH]; simpl.
  - destruct (String.eqb y x) eqn:E; [|done].
    apply String.eqb_eq in E. congruence.
  - destruct (String.eqb x z) eqn:E; simpl.
    + apply String.eqb_eq in E. subst z.
      destruct (String.eqb y x) eqn:E'; [|done].
      apply String.eqb_eq in E'. congruence.
    + by rewrite IH.
Qed.

(** The names a namespace binds after a binding, and after the bindings of
    a star import. *)
Lemma is_Some_lookup_store x y v n :
  is_Some (ns_lookup x (ns_store y v n)) <-> y = x \/ is_Some (ns_lookup x n).
Proof.
  destruct (decide (y = x)) as [->|Hne].
  - rewrite ns_lookup_store_eq. split; [by left | by eexists].
  - rewrite ns_lookup_store_ne by done. split; [by right|].
    intros [E|H]; [congruence|done].
Qed.

Lemma is_Some_lookup_store_all x l : forall n,
  is_Some (ns_lookup x (ns_store_all l n))
  <-> In x (map fst l) \/ is_Some (ns_lookup x n).
Proof.
  induction l as [|[y v] l IH]; intros n.
  - simpl. tauto.
  - change (ns_store_all ((y, v) :: l) n) with (ns_store_all l (ns_store y v n)).
    rewrite IH, is_Some_lookup_store. simpl. intuition auto.
Qed.

Lemma is_Some_lookup_nil x : is_Some (ns_lookup x []) <-> False.
Proof. split; [apply is_Some_None|done]. Qed.

(** ** Every run is a replay of its own log *)

Section Replay.
Context {S : Type} (lib : call -> S -> result * S).

Lemma exec_replay (p : prog) :
  forall (σ : kernel S) r σ',
    exec lib p σ = (r, σ') ->
    exists new,
      log σ' = log σ ++ new /\
      forall lg rest,
        exec oracle p (Kernel (ns σ) (map snd new ++ rest) lg)
        = (r, Kernel (ns σ') rest (lg ++ new)).
Proof.
  induction p as [v|e|x k IH|x v k IH|cl k IH|b IHb h IHh k IHk];
    intros σ r σ' H.
  - injection H as <- <-. exists []. split; [by rewrite app_nil_r|].
    intros lg rest. simpl. by rewrite app_nil_r.
  - injection H as <- <-. exists []. split; [by rewrite app_nil_r|].
    intros lg rest. simpl. by rewrite app_nil_r.
  - simpl in H. destruct (ns_lookup x (ns σ)) as [v|] eqn:E.
    + destruct (IH v _ _ _ H) as (new & Hl & Hr). exists new. split; [done|].
      intros lg rest. simpl. rewrite E. apply Hr.
    + injection H as <- <-. exists []. split; [by rewrite app_nil_r|].
      intros lg rest. simpl. rewrite E. by rewrite app_nil_r.
  - simpl in H. destruct (IH _ _ _ H) as (new & Hl & Hr). exists new.
    split; [done|]. intros lg rest. simpl. apply Hr.
  - simpl in H. destruct (lib cl (libst σ)) as [[v|e] s'] eqn:E.
    + destruct (IH v _ _ _ H) as (new & Hl & Hr). simpl in Hl, Hr.
      exists ((cl, Returned v) :: new). split.
      * rewrite Hl. by rewrite <- app_assoc.
      * intros lg rest. simpl. rewrite Hr. by rewrite <- app_assoc.
    + injection H as <- <-. exists [(cl, Raised e)]. split; [done|].
      intros lg rest. done.
  - simpl in H. destruct (exec lib b σ) as [[v|e] σb] eqn:Eb.
    + destruct (IHb _ _ _ Eb) as (n1 & Hl1 & Hr1).
      destruct (IHk v _ _ _ H) as (n2 & Hl2 & Hr2).
      exists (n1 ++ n2). split; [rewrite Hl2, Hl1; by rewrite app_assoc|].
      intros lg rest. simpl. rewrite map_app, <- app_assoc, Hr1.
      rewrite Hr2. by rewrite app_assoc.
    + destruct (IHb _ _ _ Eb) as (n1 & Hl1 & Hr1).
      destruct (exec lib (h e) σb) as [[v|e'] σh] eqn:Eh.
      * destruct (IHh e _ _ _ Eh) as (n2 & Hl2 & Hr2).
        destruct (IHk v _ _ _ H) as (n3 & Hl3 & Hr3).
        exists (n1 ++ n2 ++ n3). split.
        { rewrite Hl3, Hl2, Hl1. by rewrite <- !app_assoc. }
        intros lg rest. simpl. rewrite !map_app, <- !app_assoc, Hr1.
        rewrite Hr2. rewrite Hr3. by rewrite <- !app_assoc.
      * injection H as <- <-.
        destruct (IHh e _ _ _ Eh) as (n2 & Hl2 & Hr2).
        exists (n1 ++ n2). split; [rewrite Hl2, Hl1; by rewrite app_assoc|].
        intros lg rest. simpl. rewrite map_app, <- app_assoc, Hr1.
        rewrite Hr2. by rewrite app_assoc.
Qed.

(** A run against any library is reproduced by the oracle fed with the
    results the library gave. *)
Lemma run_replay (cells : list prog) (s : S) r σ :
  run lib cells s = (r, σ) ->
  run oracle cells (map snd (log σ)) = (r, Kernel (ns σ) [] (log σ)).
Proof.
  intros H. destruct (exec_replay _ _ _ _ H) as (new & Hl & Hr).
  simpl in Hl. subst new. specialize (Hr [] []).
  rewrite app_nil_r in Hr. exact Hr.
Qed.

End Replay.

(** ** Sequencing, imports and names *)

Section Bind.
Context {S : Type} (lib : call -> S -> result * S).

Lemma exec_bind p f : forall σ : kernel S,
  exec lib (bind p f) σ =
  match exec lib p σ with
  | (Returned v, σ') => exec lib (f v) σ'
  | (Raised e, σ') => (Raised e, σ')
  end.
Proof.
  induction p as [v|e|x k IH|x v k IH|cl k IH|b IHb h IHh k IHk]; intros σ;
    simpl; try done.
  - destruct (ns_lookup x (ns σ)); [apply IH|done].
  - destruct (lib cl (libst σ)) as [[v|e] s']; [apply IH|done].
  - destruct (exec lib b σ) as [[v|e] σb]; [apply IHk|].
    destruct (exec lib (h e) σb) as [[v|e'] σh]; [apply IHk|done].
Qed.

Lemma exec_bind_assoc p f g (σ : kernel S) :
  exec lib (bind (bind p f) g) σ = exec lib (bind p (fun v => bind (f v) g)) σ.
Proof.
  rewrite !exec_bind. destruct (exec lib p σ) as [[v|e] σ']; [|done].
  by rewrite exec_bind.
Qed.

Lemma exec_store_all l k : forall (n : namespace) (s : S) lg,
  exec lib (store_all l k) (Kernel n s lg)
  = exec lib k (Kernel (ns_store_all l n) s lg).
Proof.
  induction l as [|[x v] l IH]; intros n s lg; [done|]. simpl. apply IH.
Qed.

(** The imports, each followed by the rest of the program. *)
Lemma exec_import_as m x f (n : namespace) (s : S) lg :
  let c := Call (Importing m []) [] [] in
  exec lib (bind (import_as m x) f) (Kernel n s lg) =
  match lib c s with
  | (Returned v, s') =>
      exec lib (f VNone) (Kernel (ns_store x v n) s' (lg ++ [(c, Returned v)]))
  | (Raised e, s') => (Raised e, Kernel n s' (lg ++ [(c, Raised e)]))
  end.
Proof.
  intros c. rewrite exec_bind. unfold import_as, assign. simpl. fold c.
  by destruct (lib c s) as [[v|e] s'].
Qed.

Lemma exec_import_star m f (n : namespace) (s : S) lg :
  let c := Call (Importing m ["*"]) [] [] in
  exec lib (bind (import_star m) f) (Kernel n s lg) =
  match lib c s with
  | (Returned v, s') =>
      exec lib (f VNone)
        (Kernel (ns_store_all (exports v) n) s' (lg ++ [(c, Returned v)]))
  | (Raised e, s') => (Raised e, Kernel n s' (lg ++ [(c, Raised e)]))
  end.
Proof.
  intros c. rewrite exec_bind. unfold import_star. simpl. fold c.
  destruct (lib c s) as [[v|e] s']; [|done]. by rewrite exec_store_all.
Qed.

Lemma agree_store B x v n1 n2 :
  agree B n1 n2 -> agree ({[x]} ∪ B) (ns_store x v n1) (ns_store x v n2).
Proof.
  intros H y Hy. destruct (decide (x = y)) as [->|Hne].
  - by rewrite !ns_lookup_store_eq.
  - rewrite !ns_lookup_store_ne by done. apply H.
    apply elem_of_union in Hy as [Hy|Hy]; [|done].
    apply elem_of_singleton in Hy. congruence.
Qed.

Lemma agree_subseteq B B' n1 n2 : B ⊆ B' -> agree B' n1 n2 -> agree B n1 n2.
Proof. intros HB H x Hx. apply H. set_solver. Qed.

Lemma closed_exec B p :
  closed B p ->
  forall n1 n2 (s : S) lg,
    agree B n1 n2 ->
    outcome (exec lib p (Kernel n1 s lg)) = outcome (exec lib p (Kernel n2 s lg)) /\
    agree B (ns (snd (exec lib p (Kernel n1 s lg))))
            (ns (snd (exec lib p (Kernel n2 s lg)))).
Proof.
  induction 1 as [B v|B e|B x k Hx Hk IH|B x v k Hk IH|B cl k Hk IH
                 |B b h k Hb IHb Hh IHh Hk IHk];
    intros n1 n2 s lg Hag; simpl.
  - done.
  - done.
  - rewrite <- (Hag x Hx). destruct (ns_lookup x n1); [by apply IH|done].
  - destruct (IH _ _ s lg (agree_store B x v n1 n2 Hag)) as [Ho Ha].
    split; [done|]. eapply agree_subseteq; [|exact Ha]. apply union_subseteq_r.
  - destruct (lib cl s) as [[v|e] s']; [by apply IH|done].
  - destruct (IHb n1 n2 s lg Hag) as [Ho Ha].
    destruct (exec lib b (Kernel n1 s lg)) as [r1 [m1 s1 l1]].
    destruct (exec lib b (Kernel n2 s lg)) as [r2 [m2 s2 l2]].
    unfold outcome in Ho. simpl in Ho, Ha. injection Ho as <- <- <-.
    destruct r1 as [v|e]; [by apply IHk|].
    destruct (IHh e m1 m2 s1 l1 Ha) as [Ho' Ha'].
    destruct (exec lib (h e) (Kernel m1 s1 l1)) as [r1 [m1' s1' l1']].
    destruct (exec lib (h e) (Kernel m2 s1 l1)) as [r2 [m2' s2' l2']].
    unfold outcome in Ho'. simpl in Ho', Ha'. injection Ho' as <- <- <-.
    destruct r1 as [v|e']; [by apply IHk|done].
Qed.


End Bind.

Lemma bind_store_all l k f : bind (store_all l k) f = store_all l (bind k f).
Proof. induction l as [|[x v] l IH]; [done|]. simpl. by rewrite IH. Qed.

Lemma handler_free_store_all l k : handler_free k -> handler_free (store_all l k).
Proof. intros H. induction l as [|[x v] l IH]; [done|]. by constructor. Qed.

Lemma closed_weaken B p : closed B p -> forall B', B ⊆ B' -> closed B' p.
Proof.
  induction 1 as [B v|B e|B x k Hx Hk IH|B x v k Hk IH|B cl k Hk IH
                 |B b h k Hb IHb Hh IHh Hk IHk]; intros B' HB.
  - constructor.
  - constructor.
  - constructor; [by apply (proj1 (elem_of_subseteq B B') HB)|].
    intros v. by apply IH.
  - constructor. apply IH. by apply union_mono_l.
  - constructor. intros v. by apply IH.
  - constructor; [by apply IHb| intros e; by apply IHh | intros v; by apply IHk].
Qed.

Lemma closed_store_all l k : forall B, closed B k -> closed B (store_all l k).
Proof.
  induction l as [|[x v] l IH]; intros B H; [done|].
  simpl. constructor. apply IH. eapply closed_weaken; [exact H|].
  apply union_subseteq_r.
Qed.

(** A property of programs, along every path of a notebook; [star] takes it
    over the names a star import binds. *)
Ltac walk_program star :=
  cbv [notebook fold_right histo_1D histo_1D_cell0 histo_1D_hst1 highlight_bin
       histo_1D_overlay pca pca_cell0 pca_cell1 import_as import_from
       import_star assign iadd name callf meth];
  cbn [bind];
  repeat first [ constructor; intros; cbv beta
               | rewrite !bind_store_all; apply star; cbn [bind] ].

Lemma histo_1D_handler_free : handler_free (notebook histo_1D).
Proof. walk_program handler_free_store_all. Qed.

Lemma pca_handler_free : handler_free (notebook pca).
Proof. walk_program handler_free_store_all. Qed.



(** ** The calls of a run *)

(** The run of the oracle on a list of results [rs], case by case on [rs]. *)
Ltac replay_cases H rs :=
  lazymatch type of H with
  | (Returned _, _, _) = _ => idtac
  | (Raised _, _, _) = _ => idtac
  | _ => destruct rs as [|[?|?] rs]; cbv beta iota zeta in H; replay_cases H rs
  end.

(** After its first two lines [histo_1D.ipynb] reads no name but [np]. *)
Lemma histo_1D_np_agree v0 v1 :
  agree {["np"]} (ns_store_all (exports v1) (ns_store "np" v0 []))
    [("np", histo_1D_np [v0; v1])].
Proof.
  intros x Hx. apply elem_of_singleton in Hx. subst x.
  destruct (proj2 (is_Some_lookup_store_all "np" (exports v1) [("np", v0)]))
    as [w Hw]; [right; by eexists|].
  unfold histo_1D_np. change (ns_store "np" v0 []) with [("np", v0)].
  change (val [v0; v1] 1) with v1. change (val [v0; v1] 0) with v0.
  by rewrite Hw.
Qed.

(** The rest of a run, from the namespace [n'] in place of the one the
    imports left, which binds the names of [B] alike. *)
Ltac rest_of_run H lib B n' Hag vs :=
  match type of H with
  | exec _ ?R (Kernel ?n ?s ?lg) = (?r, ?σ) =>
      let Hc := fresh "Hc" in
      let Ho := fresh "Ho" in
      let H' := fresh "H" in
      let Hr := fresh "Hr" in
      let Hl := fresh "Hl" in
      let Hlg := fresh "Hlg" in
      let Hrs := fresh "Hrs" in
      let r' := fresh "r" in
      let σ' := fresh "σ" in
      let new := fresh "new" in
      let rs := fresh "rs" in
      assert (Hc : closed B R) by walk_program closed_store_all;
      destruct (closed_exec lib B R Hc n n' s lg Hag) as [Ho _];
      rewrite H in Ho; clear H Hc;
      destruct (exec lib R (Kernel n' s lg)) as [r' σ'] eqn:H';
      apply exec_replay in H' as (new & Hl & Hr);
      specialize (Hr [] []); rewrite app_nil_r in Hr;
      cbv [outcome fst snd] in Ho; injection Ho as -> _ Hlg; rewrite Hlg, Hl;
      remember (map snd new) as rs eqn:Hrs; apply (f_equal outcome) in Hr;
      cbv [outcome fst snd libst log ns] in Hr |- *;
      exists (vs ++ returned rs);
      vm_compute in Hr;
      replay_cases Hr rs; simplify_eq;
      first [ discriminate
            | left; vm_compute; done
            | right; eexists; vm_compute; split; [lia | done] ]
  end.

(** A run that ends at an import that raises, after the calls that returned
    [vs]. *)
Ltac raised_at H vs :=
  injection H as <- <-; exists vs; right; eexists; vm_compute;
  split; [lia | done].

Section Traces.
Context {S : Type} (lib : call -> S -> result * S).

Lemma histo_1D_trace s r σ :
  run lib histo_1D s = (r, σ) -> traced histo_1D_calls r (log σ).
Proof.
  intros H. unfold run, fresh in H.
  change (notebook histo_1D)
    with (bind histo_1D_cell0 (fun _ => bind (Ret VNone) (fun _ => Ret VNone))) in H.
  unfold histo_1D_cell0, histo_1D_hst1 in H.
  do 2 rewrite exec_bind_assoc in H. rewrite exec_import_as in H.
  destruct (lib _ s) as [[v0|e0] s1]; [|raised_at H (@nil pyval)].
  cbv beta in H. rewrite exec_bind_assoc, exec_import_star in H.
  destruct (lib _ s1) as [[v1|e1] s2]; [|raised_at H [v0]].
  pose proof (histo_1D_np_agree v0 v1) as Hag.
  remember (histo_1D_np [v0; v1]) as w eqn:Hw.
  rest_of_run H lib ({["np"]} : gset string) [("np", w)] Hag [v0; v1].
Qed.

Lemma pca_trace s r σ :
  run lib pca s = (r, σ) -> traced pca_calls r (log σ).
Proof.
  intros H. unfold run, fresh in H.
  change (notebook pca)
    with (bind pca_cell0
            (fun _ => bind pca_cell1 (fun _ => bind (Ret VNone) (fun _ => Ret VNone))))
    in H.
  unfold pca_cell0 in H.
  rewrite exec_bind_assoc, exec_import_star in H.
  destruct (lib _ s) as [[v0|e0] s1]; [|raised_at H (@nil pyval)].
  assert (Hag : agree ∅ (ns_store_all (exports v0) []) []) by (by intros ? ?).
  rest_of_run H lib (∅ : gset string) (@nil (string * pyval)) Hag [v0].
Qed.

End Traces.

Lemma histo_1D_calls_length vs : length (histo_1D_calls vs) = 16.
Proof. reflexivity. Qed.

Lemma pca_calls_length vs : length (pca_calls vs) = 20.
Proof. reflexivity. Qed.

(** The state a run of the modelled library ends in, computed. *)
Ltac compute_state :=
  match goal with
  | |- context [snd (run ?l ?nb ?s)] =>
      let x := eval vm_compute in (snd (run l nb s)) in
      let E := fresh in
      assert (E : snd (run l nb s) = x) by (vm_compute; reflexivity);
      rewrite E; clear E
  end.

(** The log of a complete run, call by call. *)
Ltac complete_run H Hlength :=
  let vs := fresh "vs" in
  let Hlen := fresh "Hlen" in
  let Hr := fresh "Hr" in
  let Hlg := fresh "Hlg" in
  destruct H as [vs [(Hlen & _ & Hlg) | (? & _ & Hr & _)]]; [|discriminate Hr];
  rewrite Hlength in Hlen;
  repeat (destruct vs as [|? vs]; [discriminate Hlen|]);
  destruct vs; [|discriminate Hlen];
  rewrite Hlg; clear Hlg Hlen.

(** ** The calls of a complete run *)

(** C3: the first histogram-construction call receives the array of 250
    samples that [np.random.randn(250)] returned, with exactly the options
    bins=30, errors=True, aspect=4/3, title='My distributions', c='red' and
    marker='o'; on the object it returns the notebook selects the bin of
    index 15, which it recolors violet, and to that object it adds a 3D
    text with [+=]. *)
Theorem histo_1D_first_histogram {S : Type} (lib : call -> S -> result * S) s v σ :
  run lib histo_1D s = (Returned v, σ) -> first_histogram (log σ).
Proof.
  intros H. apply histo_1D_trace in H. complete_run H histo_1D_calls_length.
  unfold first_histogram, returned_at. repeat eexists.
Qed.

Lemma histo_1D_first_histogram_witness :
  run counting histo_1D 0 = (Returned VNone, snd (run counting histo_1D 0)) /\
  first_histogram (log (snd (run counting histo_1D 0))).
Proof.
  split; [vm_compute; reflexivity|].
  apply (histo_1D_first_histogram counting 0 VNone). vm_compute; reflexivity.
Defined.

(** C4: the second histogram-construction call receives the second sample
    array, [(np.random.rand(250) - 0.5) * 12], the value of [hst1] as
    [format] and [alpha=0.5], and no other option.  The value of [hst1] is
    the one [hst1 += Text3D(...)] bound; in the modelled library, where
    [+=] adds in place, it is the object the first histogram call returned,
    and the second histogram gets the bin layout of the first. *)
Theorem histo_1D_second_histogram :
  (forall (S : Type) (lib : call -> S -> result * S) s v σ,
     run lib histo_1D s = (Returned v, σ) -> second_histogram (log σ)) /\
  (forall (np : Numpy) (geo : Geometry np) (g : gen),
     template_is_first (snd (run vedo histo_1D (boot g)))).
Proof.
  split.
  - intros S lib s v σ H. apply histo_1D_trace in H.
    complete_run H histo_1D_calls_length.
    unfold second_histogram, returned_at. repeat eexists.
  - intros np geo g. compute_state.
    unfold template_is_first, returned_at. repeat eexists.
Qed.

Lemma histo_1D_second_histogram_witness :
  run counting histo_1D 0 = (Returned VNone, snd (run counting histo_1D 0)) /\
  second_histogram (log (snd (run counting histo_1D 0))).
Proof.
  split; [vm_compute; reflexivity|].
  apply (proj1 histo_1D_second_histogram nat counting 0 VNone).
  vm_compute; reflexivity.
Defined.

(** C6: the display call of the histogram notebook receives exactly two
    objects, the values of [hst1] and [hst2], and [zoom=1.3]; it is the only
    call of [show] and the last call of the run.  In the modelled library
    the two objects on the screen are the ones the two histogram calls
    returned. *)
Theorem histo_1D_displayed :
  (forall (S : Type) (lib : call -> S -> result * S) s v σ,
     run lib histo_1D s = (Returned v, σ) -> displayed (log σ)) /\
  (forall (np : Numpy) (geo : Geometry np) (g : gen),
     shows_both (snd (run vedo histo_1D (boot g)))).
Proof.
  split.
  - intros S lib s v σ H. apply histo_1D_trace in H.
    complete_run H histo_1D_calls_length.
    unfold displayed, returned_at. repeat eexists.
  - intros np geo g. compute_state.
    unfold shows_both, returned_at. repeat eexists.
Qed.

Lemma histo_1D_displayed_witness :
  run counting histo_1D 0 = (Returned VNone, snd (run counting histo_1D 0)) /\
  displayed (log (snd (run counting histo_1D 0))).
Proof.
  split; [vm_compute; reflexivity|].
  apply (proj1 histo_1D_displayed nat counting 0 VNone).
  vm_compute; reflexivity.
Defined.

(** C1, as the code has it: the PCA notebook makes one ellipsoid-fitting
    call, on the 500 x 3 cloud that [np.random.randn(500, 3)] returned and
    with [pvalue=0.5]; on the object it returns the notebook invokes the
    containment test twice with the cloud, once without and once with
    [invert=True], and the asphericity once; the point count [N] is invoked
    once on each of the two point sets the containment tests returned. *)
Theorem pca_ellipsoid_calls {S : Type} (lib : call -> S -> result * S) s v σ :
  run lib pca s = (Returned v, σ) -> ellipsoid_calls (log σ).
Proof.
  intros H. apply pca_trace in H. complete_run H pca_calls_length.
  unfold ellipsoid_calls, returned_at. repeat eexists.
Qed.

Lemma pca_ellipsoid_calls_witness :
  run counting pca 0 = (Returned VNone, snd (run counting pca 0)) /\
  ellipsoid_calls (log (snd (run counting pca 0))).
Proof.
  split; [vm_compute; reflexivity|].
  apply (pca_ellipsoid_calls counting 0 VNone). vm_compute; reflexivity.
Defined.

(** C1, as the claim has it, fails: against the library that returns a new
    object for every call, the point counts are asked of the objects 6 and
    7, which the containment tests returned, and not of the object 4, which
    the fitting call returned. *)
Lemma pca_count_not_asked_of_ellipsoid :
  ~ count_asked_of_ellipsoid (log (snd (run counting pca 0))).
Proof.
  intros H.
  specialize (H (Call (Fn "pcaEllipsoid") [VObj 3] [("pvalue", VFloat 1 2)])
                (VObj 4) (Call (Method (VObj 6) "N") [] [])).
  assert (E : Method (VObj 6) "N" = Method (VObj 4) "N").
  { apply H; vm_compute; tauto. }
  discriminate E.
Qed.

(** ** Exceptions end the run *)

Lemma traced_propagates calls r lg : traced calls r lg -> propagates r lg.
Proof.
  intros [vs [(Hlen & -> & ->) | (e & Hlen & -> & ->)]]; split.
  - intros i cl e Hi. apply lookup_zip_Some in Hi as [_ Hi].
    rewrite list_lookup_fmap in Hi. destruct (vs !! i); discriminate Hi.
  - intros e [=].
  - intros i cl e' Hi. apply lookup_zip_Some in Hi as [_ Hi].
    apply lookup_snoc_Some in Hi as [[_ Hi] | [Hi He]].
    + rewrite list_lookup_fmap in Hi. destruct (vs !! i); discriminate Hi.
    + rewrite length_map in Hi. subst i. injection He as ->. split; [done|].
      rewrite length_zip, length_app, length_map. simpl. lia.
  - intros e' [= <-].
    destruct (lookup_lt_is_Some_2 (calls vs) (length vs) Hlen) as [cl Hcl].
    exists cl. rewrite last_lookup.
    replace (pred (length (zip (calls vs) (map Returned vs ++ [Raised e]))))
      with (length vs)
      by (rewrite length_zip, length_app, length_map; simpl; lia).
    apply lookup_zip_Some. split; [done|].
    apply lookup_snoc_Some. right. by rewrite length_map.
Qed.

(** ** Order *)

Lemma before_take a b n names : before a b names -> before a b (take n names).
Proof.
  intros H i j Hi Hj.
  apply lookup_take_Some in Hi as [Hi _]. apply lookup_take_Some in Hj as [Hj _].
  by apply H.
Qed.

Ltac positions H i :=
  do 21 (try (destruct i as [|i]; [try discriminate H|])); try discriminate H.

Ltac before_by_positions :=
  let i := fresh "i" in
  let j := fresh "j" in
  let Hi := fresh "Hi" in
  let Hj := fresh "Hj" in
  intros i j Hi Hj; positions Hi i; positions Hj j; lia.

Lemma pca_order_before :
  before "random.randn" "pcaEllipsoid" pca_order /\
  before "pcaEllipsoid" "insidePoints" pca_order /\
  before "insidePoints" "show" pca_order /\
  before "printc" "show" pca_order /\
  before "show" "close" pca_order.
Proof. repeat split; before_by_positions. Qed.

(** Every run, complete or not, case by case on the number of calls that
    returned. *)
Ltac any_run H Hlength tac :=
  let vs := fresh "vs" in
  let Hlen := fresh "Hlen" in
  let Hlg := fresh "Hlg" in
  destruct H as [vs [(Hlen & -> & Hlg) | (? & Hlen & -> & Hlg)]];
  rewrite Hlength in Hlen;
  [ repeat (destruct vs as [|? vs]; [discriminate Hlen|]);
    destruct vs; [|discriminate Hlen]; rewrite Hlg; tac
  | do 20 (destruct vs as [|? vs]; [rewrite Hlg; tac|]);
    exfalso; simpl in Hlen; lia ].

Section Order.
Context {S : Type} (lib : call -> S -> result * S).

Lemma pca_names s r σ :
  run lib pca s = (r, σ) ->
  map (fun ev => describe (fst ev)) (log σ) = take (length (log σ)) pca_order /\
  (forall v, r = Returned v -> length (log σ) = 20).
Proof.
  intros H. apply pca_trace in H.
  any_run H pca_calls_length ltac:(split; [reflexivity | by intros ? [=]]).
Qed.

Lemma pca_never_seeds s r σ :
  run lib pca s = (r, σ) -> invocations "random.seed" (log σ) = [].
Proof.
  intros H. apply pca_trace in H.
  any_run H pca_calls_length ltac:(reflexivity).
Qed.

End Order.

(** C8: the calls of the PCA notebook are made in the order of the source
    and nothing else in between: the names of the calls of a run are a
    prefix of the list of the source, and all of it when the run completes.
    The cloud is generated before the ellipsoid is fitted, the ellipsoid
    is fitted before either containment test, both tests and all prints
    are made before [show], and [close] comes after [show]. *)
Theorem pca_top_to_bottom {S : Type} (lib : call -> S -> result * S) s r σ :
  run lib pca s = (r, σ) -> top_to_bottom r (log σ).
Proof.
  intros H. destruct (pca_names lib s r σ H) as [Hn Hc].
  destruct pca_order_before as (B1 & B2 & B3 & B4 & B5).
  unfold top_to_bottom. cbv zeta. rewrite Hn.
  split; [by eexists|]. split.
  { intros v Hv. by rewrite (Hc v Hv). }
  repeat split; by apply before_take.
Qed.

Lemma pca_top_to_bottom_witness :
  run counting pca 0 = (Returned VNone, snd (run counting pca 0)) /\
  top_to_bottom (Returned VNone) (log (snd (run counting pca 0))).
Proof.
  split; [vm_compute; reflexivity|].
  apply (pca_top_to_bottom counting 0). vm_compute; reflexivity.
Defined.

(** C9: neither notebook handles an error: no cell has a [try] on any path,
    so when a library call raises, that call is the last one the run makes
    and its exception is the outcome of the run; and a run ends with an
    exception only when its last call raised it. *)
Theorem notebooks_propagate_exceptions :
  handler_free (notebook histo_1D) /\
  handler_free (notebook pca) /\
  forall (S : Type) (lib : call -> S -> result * S) s r σ,
    (run lib histo_1D s = (r, σ) -> propagates r (log σ)) /\
    (run lib pca s = (r, σ) -> propagates r (log σ)).
Proof.
  split; [exact histo_1D_handler_free|]. split; [exact pca_handler_free|].
  intros S lib s r σ. split; intros H.
  - eapply traced_propagates, histo_1D_trace, H.
  - eapply traced_propagates, pca_trace, H.
Qed.

Lemma notebooks_propagate_exceptions_witness :
  fst (run (failing 9) histo_1D 0) = Raised "RuntimeError" /\
  length (log (snd (run (failing 9) histo_1D 0))) = 10 /\
  propagates (fst (run (failing 9) histo_1D 0))
    (log (snd (run (failing 9) histo_1D 0))).
Proof.
  split; [vm_compute; reflexivity|]. split; [vm_compute; reflexivity|].
  apply (proj1 (proj2 (proj2 notebooks_propagate_exceptions) nat (failing 9) 0 _ _)).
  apply surjective_pairing.
Defined.



(** ** The modelled library *)

Section LibraryFacts.
Context {np : Numpy} {geo : Geometry np}.

Lemma rows3_length n : forall xs : list num, length xs = n * 3 -> length (rows3 xs) = n.
Proof.
  induction n as [|n IH]; intros xs H.
  - destruct xs; [done|discriminate H].
  - destruct xs as [|x [|y [|z xs]]]; try discriminate H.
    simpl. f_equal. apply IH. simpl in H. lia.
Qed.

Lemma select_partition cloud p (pts : list point) :
  Permutation (select cloud p false pts ++ select cloud p true pts) pts.
Proof.
  unfold select. induction pts as [|q pts IH]; simpl; [done|].
  destruct (inside cloud p q); simpl.
  - by apply perm_skip.
  - symmetry. apply Permutation_cons_app. by symmetry.
Qed.

Lemma select_In cloud p b (pts : list point) q :
  In q (select cloud p b pts) <-> In q pts /\ xorb b (inside cloud p q) = true.
Proof. unfold select. apply filter_In. Qed.

Lemma select_exactly_one cloud p (pts : list point) q :
  In q pts ->
  (In q (select cloud p false pts) /\ ~ In q (select cloud p true pts)) \/
  (In q (select cloud p true pts) /\ ~ In q (select cloud p false pts)).
Proof.
  intros Hq. rewrite !select_In. destruct (inside cloud p q); simpl.
  - left. split; [done|]. by intros [_ ?].
  - right. split; [done|]. by intros [_ ?].
Qed.

Lemma select_length cloud p (pts : list point) :
  length (select cloud p false pts) + length (select cloud p true pts) = length pts.
Proof.
  rewrite <- length_app. apply Permutation_length, select_partition.
Qed.

End LibraryFacts.

(** C2: in the modelled library the containment test without and with the
    inversion flag partition the cloud: every one of the 500 points is in
    exactly one of the two point sets, and the two point counts the
    notebook prints add up to 500. *)
Theorem pca_inside_outside_partition (np : Numpy) (geo : Geometry np) :
  (forall n g, length (fst (normal n g)) = n) ->
  forall g : gen, partitioned (snd (run vedo pca (boot g))).
Proof.
  intros Hn g.
  pose (pts := rows3 (fst (normal (500 * 3) g))).
  pose (p := float_of 1 2).
  assert (Hpts : length pts = 500) by (apply rows3_length, Hn).
  exists (VObj 2), (VObj 1), (VObj 3), (VObj 4), pts,
    (select pts p false pts), (select pts p true pts).
  split; [vm_compute; reflexivity|].
  split; [vm_compute; reflexivity|].
  split; [vm_compute; reflexivity|].
  split; [vm_compute; reflexivity|].
  split; [vm_compute; reflexivity|].
  split; [vm_compute; reflexivity|].
  split; [exact Hpts|].
  split; [apply select_partition|].
  split; [intros q; apply select_exactly_one|].
  split; [vm_compute; reflexivity|].
  split; [vm_compute; reflexivity|].
  by rewrite select_length.
Qed.

Lemma toy_normal_length n g : length (fst (@normal toy_numpy n g)) = n.
Proof. simpl. by rewrite length_map, length_seq. Qed.

Lemma pca_inside_outside_partition_witness :
  (forall n g, length (fst (@normal toy_numpy n g)) = n) /\
  @partitioned toy_numpy toy_geometry
    (snd (run (@vedo toy_numpy toy_geometry) pca (@boot toy_numpy 0%Z))).
Proof.
  split; [exact toy_normal_length|].
  apply (pca_inside_outside_partition toy_numpy toy_geometry toy_normal_length).
Defined.

(** C5: in the modelled library, selecting the bin of index 15 of the
    first histogram and recoloring it violet changes the color of that bin
    and nothing else: every other bin and every other object is as before,
    the bin keeps its height, transparency, error bar and marker, and the
    rest of the library's state and the namespace are untouched. *)
Theorem hst1_highlight_changes_one_colour (np : Numpy) (geo : Geometry np)
    (g : gen) :
  let σ := snd (exec vedo histo_1D_hst1 (fresh (boot g))) in
  let σ' := snd (exec vedo highlight_bin σ) in
  only_colour_changes σ σ' /\
  exec vedo histo_1D_cell0 (fresh (boot g)) = exec vedo histo_1D_overlay σ'.
Proof.
  intros σ σ'.
  pose (src := fst (normal 250 (seed_state 3))).
  pose (old := Bar (frequency src 30 src 15) (Some "red") None true
                 (Some (VStr "o"))).
  assert (Hheap : heap (libst σ')
                  = <[19 := OBar (recolour "violet" old)]> (heap (libst σ)))
    by (vm_compute; reflexivity).
  assert (Hbars : forall i b', i <> 15 -> seq 4 30 !! i = Some b' -> b' <> 19).
  { intros i b' Hi Hb ->. apply Hi.
    eapply NoDup_lookup; [apply (NoDup_seq 4 30)|exact Hb|reflexivity]. }
  split; [|vm_compute; reflexivity].
  exists 34, (seq 4 30), src, [],
    [("bins", VInt 30); ("errors", VBool true); ("aspect", VFloat 4 3);
     ("title", VStr "My distributions"); ("c", VStr "red");
     ("marker", VStr "o")], 19, old.
  split; [vm_compute; reflexivity|].
  split; [vm_compute; reflexivity|].
  split; [reflexivity|].
  split; [reflexivity|].
  split; [vm_compute; reflexivity|].
  split; [vm_compute; reflexivity|].
  split.
  { intros i b' Hi Hb. rewrite Hheap.
    apply list_lookup_insert_ne. intros E. by apply (Hbars i b' Hi Hb). }
  split.
  { intros l Hl. rewrite Hheap. by apply list_lookup_insert_ne. }
  split; [by rewrite Hheap, length_insert|].
  do 4 (split; [vm_compute; reflexivity|]). vm_compute; reflexivity.
Qed.

(** C10: in the modelled library the histogram notebook seeds the
    generator with 3 before it draws, so every two runs are the same
    whatever state the generator starts in: [data1] and [data2], which the
    two histogram calls receive, are the draws from the state of seed 3.
    The PCA notebook never calls [seed]; its cloud is drawn from the state
    the generator starts in, and differs between two runs whenever the
    generator draws differently from their two states. *)
Theorem histo_1D_samples_repeat :
  (forall (np : Numpy) (geo : Geometry np) (g1 g2 : gen),
     run vedo histo_1D (boot g1) = run vedo histo_1D (boot g2)) /\
  (forall (np : Numpy) (geo : Geometry np) (g : gen),
     seeded_samples (snd (run vedo histo_1D (boot g)))) /\
  (forall (S : Type) (lib : call -> S -> result * S) s r σ,
     run lib pca s = (r, σ) -> invocations "random.seed" (log σ) = []) /\
  (forall (np : Numpy) (geo : Geometry np) (g : gen),
     points_named (snd (run vedo pca (boot g))) "pts"
     = Some (rows3 (fst (normal (500 * 3) g)))) /\
  (forall (np : Numpy) (geo : Geometry np) (g1 g2 : gen),
     rows3 (fst (normal (500 * 3) g1)) <> rows3 (fst (normal (500 * 3) g2)) ->
     points_named (snd (run vedo pca (boot g1))) "pts"
     <> points_named (snd (run vedo pca (boot g2))) "pts").
Proof.
  assert (Hpts : forall (np : Numpy) (geo : Geometry np) (g : gen),
            points_named (snd (run vedo pca (boot g))) "pts"
            = Some (rows3 (fst (normal (500 * 3) g))))
    by (intros; vm_compute; reflexivity).
  split; [intros; vm_compute; reflexivity|].
  split.
  { intros np geo g. exists (VObj 0), (VObj 3). do 4 eexists.
    do 5 (split; [vm_compute; reflexivity|]). vm_compute; reflexivity. }
  split; [intros S lib s r σ; apply pca_never_seeds|].
  split; [exact Hpts|].
  intros np geo g1 g2 Hne. rewrite !Hpts. by intros [= E].
Qed.

Lemma histo_1D_samples_repeat_witness :
  run (@vedo toy_numpy toy_geometry) histo_1D (@boot toy_numpy 0%Z)
  = run (@vedo toy_numpy toy_geometry) histo_1D (@boot toy_numpy 1%Z) /\
  points_named (snd (run (@vedo toy_numpy toy_geometry) pca (@boot toy_numpy 0%Z))) "pts"
  <> points_named (snd (run (@vedo toy_numpy toy_geometry) pca (@boot toy_numpy 1%Z))) "pts".
Proof.
  destruct histo_1D_samples_repeat as (Hsame & _ & _ & _ & Hdiffer).
  split; [apply (Hsame toy_numpy toy_geometry)|].
  apply (Hdiffer toy_numpy toy_geometry). intros E. vm_compute in E. discriminate E.
Defined.

(** ** More properties of the two notebooks *)

Lemma histo_1D_order_before :
  before "embedWindow" "histogram" histo_1D_order /\
  before "random.seed" "random.randn" histo_1D_order /\
  before "random.randn" "random.rand" histo_1D_order /\
  before "random.rand" "histogram" histo_1D_order /\
  before "unpack" "c" histo_1D_order /\
  before "c" "Text3D" histo_1D_order /\
  before "Text3D" "__iadd__" histo_1D_order /\
  before "__iadd__" "show" histo_1D_order /\
  before "histogram" "show" histo_1D_order.
Proof. repeat split; before_by_positions. Qed.

(** Every run of a notebook of at most 20 calls, case by case on the number
    of calls that returned. *)
Ltac each_run H Hlength tac :=
  let vs := fresh "vs" in
  let Hlen := fresh "Hlen" in
  let Hlg := fresh "Hlg" in
  destruct H as [vs [(Hlen & -> & Hlg) | (? & Hlen & -> & Hlg)]];
  rewrite Hlength in Hlen;
  [ repeat (destruct vs as [|? vs]; [discriminate Hlen|]);
    destruct vs; [|discriminate Hlen]; rewrite Hlg; tac
  | do 20 (destruct vs as [|? vs];
           [first [exfalso; simpl in Hlen; lia | rewrite Hlg; tac]|]);
    exfalso; simpl in Hlen; lia ].

Section MoreOrder.
Context {S : Type} (lib : call -> S -> result * S).

Lemma histo_1D_names s r σ :
  run lib histo_1D s = (r, σ) ->
  map (fun ev => describe (fst ev)) (log σ)
  = take (length (log σ)) histo_1D_order /\
  (forall v, r = Returned v -> length (log σ) = 16).
Proof.
  intros H. apply histo_1D_trace in H.
  each_run H histo_1D_calls_length
    ltac:(split; [reflexivity | by intros ? [=]]).
Qed.

End MoreOrder.

(** X1: the calls of the histogram notebook are made in the order of the
    source and nothing else in between: the names of the calls of a run
    are a prefix of the list of the source, and all of it when the run
    completes.  The generator is seeded before either sample is drawn, the
    window is embedded and the samples are drawn before a histogram is
    built, the bin is selected before it is recolored, the text is made
    before it is added, and [show] comes after both histograms and the
    [+=]. *)
Theorem histo_1D_top_to_bottom {S : Type} (lib : call -> S -> result * S) s r σ :
  run lib histo_1D s = (r, σ) -> histo_1D_in_order r (log σ).
Proof.
  intros H. destruct (histo_1D_names lib s r σ H) as [Hn Hc].
  destruct histo_1D_order_before as (B1 & B2 & B3 & B4 & B5 & B6 & B7 & B8 & B9).
  unfold histo_1D_in_order. cbv zeta. rewrite Hn.
  split; [by eexists|]. split.
  { intros v Hv. by rewrite (Hc v Hv). }
  repeat split; by apply before_take.
Qed.

Lemma histo_1D_top_to_bottom_witness :
  run (failing 12) histo_1D 0
  = (Raised "RuntimeError", snd (run (failing 12) histo_1D 0)) /\
  histo_1D_in_order (Raised "RuntimeError")
    (log (snd (run (failing 12) histo_1D 0))).
Proof.
  split; [vm_compute; reflexivity|].
  apply (histo_1D_top_to_bottom (failing 12) 0). vm_compute; reflexivity.
Defined.

(** X2: in a complete run of the PCA notebook the point set of the
    containment test without inversion is the one shown in green and
    counted under the label of the inside points, printed in green; the
    point set of the test with [invert=True] is the one shown in red and
    counted under the label of the outside points, printed in red; the
    third print carries the asphericity of the ellipsoid and no color.
    There is no other call of [Points] or [printc]. *)
Theorem pca_labelled {S : Type} (lib : call -> S -> result * S) s v σ :
  run lib pca s = (Returned v, σ) -> labelled (log σ).
Proof.
  intros H. apply pca_trace in H. complete_run H pca_calls_length.
  unfold labelled, returned_at. repeat eexists.
Qed.

Lemma pca_labelled_witness :
  run counting pca 0 = (Returned VNone, snd (run counting pca 0)) /\
  labelled (log (snd (run counting pca 0))).
Proof.
  split; [vm_compute; reflexivity|].
  apply (pca_labelled counting 0 VNone). vm_compute; reflexivity.
Defined.

(** X3: in a complete run of the PCA notebook the plotter that [Plotter()]
    returned gets the ellipsoid, the green point set and the red point
    set, in this order and by three [+=], each applied to the value the
    one before left in [plt]; [show] and then [close] are invoked on the
    value the last [+=] left, once each, and [close] is the last call. *)
Theorem pca_plotter_chain {S : Type} (lib : call -> S -> result * S) s v σ :
  run lib pca s = (Returned v, σ) -> plotter_chain (log σ).
Proof.
  intros H. apply pca_trace in H. complete_run H pca_calls_length.
  unfold plotter_chain, returned_at. repeat eexists.
Qed.

Lemma pca_plotter_chain_witness :
  run counting pca 0 = (Returned VNone, snd (run counting pca 0)) /\
  plotter_chain (log (snd (run counting pca 0))).
Proof.
  split; [vm_compute; reflexivity|].
  apply (pca_plotter_chain counting 0 VNone). vm_compute; reflexivity.
Defined.

(** ** The bindings of a run *)

Lemma ns_store_all_app l1 l2 n :
  ns_store_all (l1 ++ l2) n = ns_store_all l2 (ns_store_all l1 n).
Proof. apply fold_left_app. Qed.

Section StoresFacts.
Context {S : Type} (lib : call -> S -> result * S).

Lemma stores_ns p : forall σ : kernel S,
  ns (snd (exec lib p σ)) = ns_store_all (stores lib p σ) (ns σ).
Proof.
  induction p as [v|e|x k IH|x v k IH|cl k IH|b IHb h IHh k IHk]; intros σ;
    simpl; try done.
  - destruct (ns_lookup x (ns σ)); [apply IH|done].
  - destruct (lib cl (libst σ)) as [[v|e] s']; [|done]. by rewrite IH.
  - rewrite ns_store_all_app, <- IHb.
    destruct (exec lib b σ) as [[v|e] σb]; simpl; [apply IHk|].
    rewrite ns_store_all_app, <- IHh.
    destruct (exec lib (h e) σb) as [[v|e'] σh]; simpl; [apply IHk|done].
Qed.

Lemma closed_stores B p :
  closed B p ->
  forall n1 n2 (s : S) lg,
    agree B n1 n2 ->
    stores lib p (Kernel n1 s lg) = stores lib p (Kernel n2 s lg).
Proof.
  induction 1 as [B v|B e|B x k Hx Hk IH|B x v k Hk IH|B cl k Hk IH
                 |B b h k Hb IHb Hh IHh Hk IHk];
    intros n1 n2 s lg Hag; simpl.
  - done.
  - done.
  - rewrite <- (Hag x Hx). destruct (ns_lookup x n1); [by apply IH|done].
  - f_equal. apply IH. by apply agree_store.
  - destruct (lib cl s) as [[v|e] s']; [by apply IH|done].
  - rewrite (IHb n1 n2 s lg Hag). f_equal.
    destruct (closed_exec lib B b Hb n1 n2 s lg Hag) as [Ho Ha].
    destruct (exec lib b (Kernel n1 s lg)) as [r1 [m1 s1 l1]].
    destruct (exec lib b (Kernel n2 s lg)) as [r2 [m2 s2 l2]].
    unfold outcome in Ho. simpl in Ho, Ha. injection Ho as <- <- <-.
    destruct r1 as [v|e]; [by apply IHk|].
    rewrite (IHh e m1 m2 s1 l1 Ha). f_equal.
    destruct (closed_exec lib B (h e) (Hh e) m1 m2 s1 l1 Ha) as [Ho' Ha'].
    destruct (exec lib (h e) (Kernel m1 s1 l1)) as [r1 [m1' s1' l1']].
    destruct (exec lib (h e) (Kernel m2 s1 l1)) as [r2 [m2' s2' l2']].
    unfold outcome in Ho'. simpl in Ho', Ha'. injection Ho' as <- <- <-.
    destruct r1 as [v|e']; [by apply IHk|done].
Qed.

Lemma exec_log p (σ : kernel S) :
  exists new,
    log (snd (exec lib p σ)) = log σ ++ new /\
    forall lg rest,
      exec oracle p (Kernel (ns σ) (map snd new ++ rest) lg)
      = (fst (exec lib p σ), Kernel (ns (snd (exec lib p σ))) rest (lg ++ new)).
Proof.
  destruct (exec lib p σ) as [r σ'] eqn:E. by apply exec_replay in E.
Qed.

(** The oracle fed with the results of a run makes the bindings of the
    run. *)
Lemma stores_replay p :
  forall (σ : kernel S) new,
    log (snd (exec lib p σ)) = log σ ++ new ->
    forall lg rest,
      stores oracle p (Kernel (ns σ) (map snd new ++ rest) lg) = stores lib p σ.
Proof.
  induction p as [v|e|x k IH|x v k IH|cl k IH|b IHb h IHh k IHk];
    intros σ new Hl lg rest; simpl in *.
  - done.
  - done.
  - destruct (ns_lookup x (ns σ)); [by apply IH|done].
  - f_equal. by apply (IH (Kernel (ns_store x v (ns σ)) (libst σ) (log σ))).
  - destruct (lib cl (libst σ)) as [[v|e] s'] eqn:E.
    + destruct (exec_log (k v) (Kernel (ns σ) s' (log σ ++ [(cl, Returned v)])))
        as (new' & Hl' & _). simpl in Hl'.
      rewrite Hl', <- app_assoc in Hl. apply app_inv_head in Hl. subst new.
      simpl. by apply (IH v (Kernel (ns σ) s' (log σ ++ [(cl, Returned v)]))).
    + simpl in Hl. apply app_inv_head in Hl. by subst new.
  - destruct (exec_log b σ) as (n1 & Hl1 & Hr1).
    destruct (exec lib b σ) as [[v|e] σb] eqn:Eb; simpl in Hl1, Hr1.
    + destruct (exec_log (k v) σb) as (n2 & Hl2 & _).
      rewrite Hl2, Hl1, <- app_assoc in Hl. apply app_inv_head in Hl. subst new.
      rewrite map_app, <- app_assoc, (IHb σ n1), Hr1 by (by rewrite Eb).
      f_equal. by apply (IHk v σb n2).
    + destruct (exec_log (h e) σb) as (n2 & Hl2 & Hr2).
      destruct (exec lib (h e) σb) as [[v|e'] σh] eqn:Eh; simpl in Hl2, Hr2.
      * destruct (exec_log (k v) σh) as (n3 & Hl3 & _).
        rewrite Hl3, Hl2, Hl1, <- !app_assoc in Hl. apply app_inv_head in Hl.
        subst new.
        rewrite !map_app, <- !app_assoc, (IHb σ n1), Hr1 by (by rewrite Eb).
        f_equal. rewrite (IHh e σb n2), Hr2 by (by rewrite Eh).
        f_equal. by apply (IHk v σh n3).
      * simpl in Hl. rewrite Hl2, Hl1, <- !app_assoc in Hl.
        apply app_inv_head in Hl. subst new.
        rewrite !map_app, <- !app_assoc, (IHb σ n1), Hr1 by (by rewrite Eb).
        f_equal. by rewrite (IHh e σb n2), Hr2 by (by rewrite Eh).
Qed.

End StoresFacts.

(** The replay of a run, with the bindings it makes. *)
Ltac replay_cases_stores H rs :=
  lazymatch type of H with
  | (Returned _, _, _, _) = _ => idtac
  | (Raised _, _, _, _) = _ => idtac
  | _ => destruct rs as [|[?|?] rs]; cbv beta iota zeta in H;
         replay_cases_stores H rs
  end.

(** What a complete run binds. *)
Ltac names_bound :=
  let Hv := fresh in
  intros ? Hv; first
    [ discriminate Hv
    | intros ?; rewrite !is_Some_lookup_store_all, ?is_Some_lookup_store,
        is_Some_lookup_nil;
      simpl; tauto ].

(** The bindings of the rest of a run, from the namespace [n'] in place of
    the one the imports left. *)
Ltac bindings_rest H lib B n' Hag :=
  match type of H with
  | exec _ ?R (Kernel ?n ?s ?lg) = (?r, ?σ) =>
      let Hc := fresh "Hc" in
      let Ho := fresh "Ho" in
      let Hw := fresh "Hw" in
      let Hns := fresh "Hns" in
      let H' := fresh "H" in
      let Hr := fresh "Hr" in
      let Hl := fresh "Hl" in
      let Hlg := fresh "Hlg" in
      let Hrs := fresh "Hrs" in
      let r' := fresh "r" in
      let σ' := fresh "σ" in
      let new := fresh "new" in
      let rs := fresh "rs" in
      let W := fresh "W" in
      let HW := fresh "HW" in
      assert (Hc : closed B R) by walk_program closed_store_all;
      destruct (closed_exec lib B R Hc n n' s lg Hag) as [Ho _];
      pose proof (closed_stores lib B R Hc n n' s lg Hag) as Hw;
      pose proof (stores_ns lib R (Kernel n s lg)) as Hns;
      rewrite H, Hw in Hns; rewrite H in Ho; clear H Hc Hw;
      destruct (exec_log lib R (Kernel n' s lg)) as (new & Hl & Hr);
      rewrite <- (stores_replay lib R (Kernel n' s lg) new Hl [] []) in Hns;
      specialize (Hr [] []);
      destruct (exec lib R (Kernel n' s lg)) as [r' σ'];
      cbn [outcome fst snd libst log ns] in Ho, Hl, Hr, Hns;
      rewrite app_nil_r in Hr, Hns;
      injection Ho as -> _ Hlg; unfold binds; rewrite Hlg, Hl, Hns;
      remember (map snd new) as rs eqn:Hrs;
      match type of Hns with
      | _ = ns_store_all ?w _ => remember w as W eqn:HW
      end;
      apply (f_equal outcome) in Hr;
      cbv [outcome fst snd libst log ns] in Hr;
      assert (Hp : (r', @nil result, new, W) = (r', @nil result, new, W)) by reflexivity;
      rewrite <- Hr in Hp at 1; rewrite HW in Hp at 1; clear Hr HW Hns;
      vm_compute in Hp;
      replay_cases_stores Hp rs; simplify_eq;
      first [ discriminate
            | split; [vm_compute; reflexivity | names_bound] ]
  end.

Ltac bindings_raised H :=
  injection H as <- <-; split; [vm_compute; reflexivity | names_bound].

(** X4: the namespace a run of the histogram notebook leaves, whatever the
    library and wherever the run ended, is the one made by the bindings of
    the source whose call returned, in order: [np] is the module numpy, the
    star import binds the public names of vedo it received, [histogram] is
    what the import from [vedo.pyplot] gave, [data1] the result of [randn],
    [data2] the result of the product, [hst1] the result of the first
    histogram call and then of the [+=], [hst2] the result of the second
    histogram call.  What a complete run binds is these six names and the
    names the star import received, and no other name. *)
Theorem histo_1D_binds {S : Type} (lib : call -> S -> result * S) s r σ :
  run lib histo_1D s = (r, σ) ->
  binds histo_1D_assignments
    ["np"; "histogram"; "data1"; "data2"; "hst1"; "hst2"] 1 r (ns σ) (log σ).
Proof.
  intros H. unfold run, fresh in H.
  change (notebook histo_1D)
    with (bind histo_1D_cell0 (fun _ => bind (Ret VNone) (fun _ => Ret VNone)))
    in H.
  unfold histo_1D_cell0, histo_1D_hst1 in H.
  do 2 rewrite exec_bind_assoc in H. rewrite exec_import_as in H.
  destruct (lib _ s) as [[v0|e0] s1]; [|bindings_raised H].
  cbv beta in H. rewrite exec_bind_assoc, exec_import_star in H.
  destruct (lib _ s1) as [[v1|e1] s2]; [|bindings_raised H].
  pose proof (histo_1D_np_agree v0 v1) as Hag.
  remember (histo_1D_np [v0; v1]) as w eqn:Hw.
  bindings_rest H lib ({["np"]} : gset string) [("np", w)] Hag.
Qed.

Lemma histo_1D_binds_witness :
  run (failing 13) histo_1D 0
  = (Raised "RuntimeError", snd (run (failing 13) histo_1D 0)) /\
  ns (snd (run (failing 13) histo_1D 0))
  = [("np", VObj 0); ("histogram", VObj 2); ("data1", VObj 5);
     ("data2", VObj 8); ("hst1", VObj 9)] /\
  binds histo_1D_assignments
    ["np"; "histogram"; "data1"; "data2"; "hst1"; "hst2"] 1
    (Raised "RuntimeError") (ns (snd (run (failing 13) histo_1D 0)))
    (log (snd (run (failing 13) histo_1D 0))).
Proof.
  split; [vm_compute; reflexivity|]. split; [vm_compute; reflexivity|].
  apply (histo_1D_binds (failing 13) 0). vm_compute; reflexivity.
Defined.



(** X6: the second cell of the PCA notebook, [plt.close()], depends on the
    first: run in a new kernel it raises [NameError] and calls nothing;
    run where [plt] is bound it makes one call, [close] on the value of
    [plt], binds nothing, and its outcome is the outcome of that call. *)
Theorem pca_cell1_needs_plt {S : Type} (lib : call -> S -> result * S) :
  (forall s, exec lib pca_cell1 (fresh s) = (Raised NameError, fresh s)) /\
  (forall (σ : kernel S) plt,
     ns_lookup "plt" (ns σ) = Some plt ->
     let closing := Call (Method plt "close") [] [] in
     exec lib pca_cell1 σ
     = (fst (lib closing (libst σ)),
        Kernel (ns σ) (snd (lib closing (libst σ)))
          (log σ ++ [(closing, fst (lib closing (libst σ)))]))).
Proof.
  split; [reflexivity|].
  intros σ plt Hplt closing. unfold pca_cell1, name, meth. simpl.
  rewrite Hplt. simpl. fold closing.
  by destruct (lib closing (libst σ)) as [[v|e] s'].
Qed.

Lemma pca_cell1_needs_plt_witness :
  exec counting pca_cell1 (fresh 0) = (Raised NameError, fresh 0) /\
  ns_lookup "plt" [("plt", VObj 7)] = Some (VObj 7) /\
  exec counting pca_cell1 (Kernel [("plt", VObj 7)] 3 [])
  = (Returned (VObj 3),
     Kernel [("plt", VObj 7)] 4
       [(Call (Method (VObj 7) "close") [] [], Returned (VObj 3))]).
Proof.
  split; [apply (proj1 (pca_cell1_needs_plt counting))|].
  split; [reflexivity|].
  apply (proj2 (pca_cell1_needs_plt counting)
           (Kernel [("plt", VObj 7)] 3 []) (VObj 7) eq_refl).
Defined.

Ltac needs_all_case :=
  vm_compute;
  split;
  [ split;
    [ let Hne := fresh in
      intros Hne; first [by exfalso; apply Hne | by repeat eexists]
    | let Hl := fresh in
      let E := fresh in
      intros (? & ? & Hl) E; first [discriminate Hl | discriminate E] ]
  | split;
    [ let Hne := fresh in
      intros Hne; first [reflexivity | by exfalso; apply Hne]
    | let He := fresh in
      let Hle := fresh in
      intros ? He Hle; first [reflexivity | discriminate He | lia] ] ].

(** X7: the PCA notebook closes its plotter only when everything before
    went well: [close] is called exactly when [show] returned, it is then
    the twentieth call, and in a run that an earlier call ended with an
    exception the plotter is never closed. *)
Theorem pca_close_needs_all {S : Type} (lib : call -> S -> result * S) s r σ :
  run lib pca s = (r, σ) ->
  last_call_needs_all (invocations "close" (log σ)) 19 r (log σ).
Proof.
  intros H. apply pca_trace in H. unfold last_call_needs_all.
  each_run H pca_calls_length ltac:(needs_all_case).
Qed.

Lemma pca_close_needs_all_witness :
  run (failing 18) pca 0 = (Raised "RuntimeError", snd (run (failing 18) pca 0)) /\
  invocations "close" (log (snd (run (failing 18) pca 0))) = [] /\
  last_call_needs_all (invocations "close" (log (snd (run (failing 18) pca 0))))
    19 (Raised "RuntimeError") (log (snd (run (failing 18) pca 0))).
Proof.
  split; [vm_compute; reflexivity|]. split; [vm_compute; reflexivity|].
  apply (pca_close_needs_all (failing 18) 0). vm_compute; reflexivity.
Defined.

(** X8: the histogram notebook displays only when everything before went
    well: [show] is called exactly when the second histogram call
    returned, it is then the sixteenth call, and in a run that an earlier
    call ended with an exception nothing is displayed. *)
Theorem histo_1D_show_needs_all {S : Type} (lib : call -> S -> result * S) s r σ :
  run lib histo_1D s = (r, σ) ->
  last_call_needs_all (calls_to "show" (log σ)) 15 r (log σ).
Proof.
  intros H. apply histo_1D_trace in H. unfold last_call_needs_all.
  each_run H histo_1D_calls_length ltac:(needs_all_case).
Qed.

Lemma histo_1D_show_needs_all_witness :
  run (failing 9) histo_1D 0
  = (Raised "RuntimeError", snd (run (failing 9) histo_1D 0)) /\
  calls_to "show" (log (snd (run (failing 9) histo_1D 0))) = [] /\
  last_call_needs_all (calls_to "show" (log (snd (run (failing 9) histo_1D 0))))
    15 (Raised "RuntimeError") (log (snd (run (failing 9) histo_1D 0))).
Proof.
  split; [vm_compute; reflexivity|]. split; [vm_compute; reflexivity|].
  apply (histo_1D_show_needs_all (failing 9) 0). vm_compute; reflexivity.
Defined.

(** X9: the statement [hst1.unpack(15).c('violet')] binds no name.  Where
    [hst1] is unbound it raises [NameError] and calls nothing; where [hst1]
    is bound it calls [unpack(15)] on its value, and [c('violet')] on what
    [unpack] returned; when [unpack] raises, [c] is not called and the
    exception is the outcome. *)
Theorem highlight_bin_calls {S : Type} (lib : call -> S -> result * S) :
  (forall σ : kernel S,
     ns_lookup "hst1" (ns σ) = None ->
     exec lib highlight_bin σ = (Raised NameError, σ)) /\
  (forall (σ : kernel S) hst1,
     ns_lookup "hst1" (ns σ) = Some hst1 ->
     let selecting := Call (Method hst1 "unpack") [VInt 15] [] in
     let x := exec lib highlight_bin σ in
     ns (snd x) = ns σ /\
     match lib selecting (libst σ) with
     | (Raised e, s1) =>
         x = (Raised e, Kernel (ns σ) s1 (log σ ++ [(selecting, Raised e)]))
     | (Returned bin, s1) =>
         let colouring := Call (Method bin "c") [VStr "violet"] [] in
         fst x = fst (lib colouring s1) /\
         libst (snd x) = snd (lib colouring s1) /\
         log (snd x)
         = log σ ++ [(selecting, Returned bin);
                     (colouring, fst (lib colouring s1))]
     end).
Proof.
  split.
  - intros σ Hh. unfold highlight_bin, name, meth. simpl. by rewrite Hh.
  - intros σ hst1 Hh selecting x. subst x.
    unfold highlight_bin, name, meth. simpl. rewrite Hh. simpl. fold selecting.
    destruct (lib selecting (libst σ)) as [[bin|e] s1]; [|done].
    simpl. destruct (lib _ s1) as [[v|e] s2]; simpl;
      by rewrite <- app_assoc.
Qed.

Lemma highlight_bin_calls_witness :
  ns_lookup "hst1" [("hst1", VObj 9)] = Some (VObj 9) /\
  exec counting highlight_bin (Kernel [("hst1", VObj 9)] 10 [])
  = (Returned (VObj 11),
     Kernel [("hst1", VObj 9)] 12
       [(Call (Method (VObj 9) "unpack") [VInt 15] [], Returned (VObj 10));
        (Call (Method (VObj 10) "c") [VStr "violet"] [], Returned (VObj 11))]) /\
  exec (failing 0) highlight_bin (Kernel [("hst1", VObj 9)] 0 [])
  = (Raised "RuntimeError",
     Kernel [("hst1", VObj 9)] 1
       [(Call (Method (VObj 9) "unpack") [VInt 15] [], Raised "RuntimeError")]).
Proof.
  split; [reflexivity|]. split; [reflexivity|].
  exact (proj2 (proj2 (highlight_bin_calls (failing 0))
                  (Kernel [("hst1", VObj 9)] 0 []) (VObj 9) eq_refl)).
Defined.
